(** * Emotion resolution in [predict.py]: a shallow embedding

    The development follows [src/predict.py]:
    - [CPUQwenEmotion] (clamp_score, convert, inference),
    - [SafeQwenEmotion] and [_wrap_qwen_with_fallback],
    - [_parse_vector] and [Predictor.predict].

    Python values are embedded as follows.
    - A [str] is the list of its Unicode code points.
    - A [float] is an IEEE-754 binary64 value, [spec_float] of the
      Standard Library, with round-to-nearest-even conversions.
    - A [dict] is an association list in insertion order, without
      duplicate keys (the order of [dict.values()] is observable).
    - A raised exception is a value of [exn]; only classes deriving from
      [Exception] occur, so that [except Exception] catches every [exn].

    Library routines the program calls ([str.strip], [str.split],
    [str.lower], [float], [json.loads], [re.finditer] on the one pattern
    of the program) are written out as functions.  Their limits:
    - two tables of the Unicode database are cut down to their ASCII
      part: decimal digits other than 0-9 are not digits here, and
      [str.lower] maps only A-Z;
    - the limits of the interpreter are left out: the recursion limit
      (deeply nested JSON) and the limit on the digits of an integer
      literal;
    - the cause that [raise ... from exc] records is not kept.

    The tokenizer, the language model and the synthesis engine are
    parameters: functions on a state [ext] of their own that may raise. *)

From Stdlib Require Import ZArith NArith List Bool Lia String Ascii.
From Stdlib Require Import Floats.SpecFloat.
Import ListNotations.

Set Implicit Arguments.
#[local] Set Warnings "-register-all".

(** ** Strings *)

Definition codepoint := N.
Definition pystr := list codepoint.

(** An ASCII literal as a Python string. *)
Definition py (s : string) : pystr := map N_of_ascii (list_ascii_of_string s).

(** [a == b] on strings. *)
Fixpoint pystr_eqb (a b : pystr) : bool :=
  match a, b with
  | [], [] => true
  | x :: a', y :: b' => (x =? y)%N && pystr_eqb a' b'
  | _, _ => false
  end.

Module Str.

Local Open Scope N_scope.

(** [str.isspace] on one code point (also [\s] of [re] on str patterns). *)
Definition isspace (c : codepoint) : bool :=
  ((9 <=? c) && (c <=? 13)) || ((28 <=? c) && (c <=? 32))
  || (c =? 133) || (c =? 160) || (c =? 5760)
  || ((8192 <=? c) && (c <=? 8202))
  || (c =? 8232) || (c =? 8233) || (c =? 8239) || (c =? 8287)
  || (c =? 12288).

Fixpoint lstrip (s : pystr) : pystr :=
  match s with
  | c :: s' => if isspace c then lstrip s' else s
  | [] => []
  end.

Definition rstrip (s : pystr) : pystr := rev (lstrip (rev s)).

(** [s.strip()] *)
Definition strip (s : pystr) : pystr := rstrip (lstrip s).

(** [s.startswith(p)] *)
Fixpoint startswith (s p : pystr) : bool :=
  match p, s with
  | [], _ => true
  | a :: p', b :: s' => (a =? b) && startswith s' p'
  | _ :: _, [] => false
  end.

(** [p in s] for strings: [p] occurs as a contiguous run of [s]. *)
Fixpoint contains (s p : pystr) : bool :=
  startswith s p ||
  match s with
  | [] => false
  | _ :: s' => contains s' p
  end.

(** [s.split(sep)] for a one-character separator: one more piece than
    there are separators, empty pieces kept. *)
Fixpoint split (sep : codepoint) (s : pystr) : list pystr :=
  match s with
  | [] => [[]]
  | c :: s' =>
      if c =? sep then [] :: split sep s'
      else match split sep s' with
           | p :: ps => (c :: p) :: ps
           | [] => [[c]]
           end
  end.

Definition lower_cp (c : codepoint) : codepoint :=
  if (65 <=? c) && (c <=? 90) then c + 32 else c.

(** [s.lower()] *)
Definition lower (s : pystr) : pystr := map lower_cp s.

End Str.


(** ** Exceptions and results *)

(** The exception classes that occur.  [JSONDecodeError] derives from
    [ValueError]; all derive from [Exception].  [OtherException] stands for
    what the model and tokenizer libraries may raise (OSError, RuntimeError,
    ImportError, ...). *)
Inductive exn : Type :=
| ValueError (msg : string)
| JSONDecodeError
| TypeError
| AttributeError
| OverflowError
| KeyError
| OtherException (name : string).

(** [isinstance(e, ValueError)] *)
Definition is_ValueError (e : exn) : bool :=
  match e with
  | ValueError _ | JSONDecodeError => true
  | _ => false
  end.

(** [isinstance(e, json.JSONDecodeError)] *)
Definition is_JSONDecodeError (e : exn) : bool :=
  match e with
  | JSONDecodeError => true
  | _ => false
  end.

Inductive result (A : Type) : Type :=
| Ok (a : A)
| Raise (e : exn).
Arguments Ok {A} a.
Arguments Raise {A} e.

Definition rbind {A B} (r : result A) (k : A -> result B) : result B :=
  match r with
  | Ok a => k a
  | Raise e => Raise e
  end.

Notation "x <- c ;; k" := (rbind c (fun x => k))
  (at level 61, c at next level, right associativity).

(** A comprehension [[f(x) for x in xs]] whose body may raise: left to
    right, the first exception ends it. *)
Fixpoint rmap {A B} (f : A -> result B) (xs : list A) : result (list B) :=
  match xs with
  | [] => Ok []
  | x :: xs' =>
      y <- f x ;;
      ys <- rmap f xs' ;;
      Ok (y :: ys)
  end.

(** ** Floats *)

Definition float := spec_float.

Module Float.

Local Open Scope Z_scope.

Definition prec : Z := 53.
Definition emax : Z := 1024.

Definition ltb (a b : float) : bool := SFltb a b.
Definition leb (a b : float) : bool := SFleb a b.

(** The float nearest to the integer [z] (ties to even), infinite when
    out of range. *)
Definition of_Z (z : Z) : float := binary_normalize prec emax z 0 false.

(** The float nearest to [d * 10^k], for [0 <= d].  For a negative [k] the
    quotient is taken with 57 bits or more and a sticky bit below them, so
    that rounding it is rounding the exact value. *)
Definition of_decimal (d k : Z) : float :=
  if d =? 0 then S754_zero false
  else if 0 <=? k then binary_normalize prec emax (d * 10 ^ k) 0 false
  else
    let den := 10 ^ (- k) in
    let s := Z.max 0 (Z.log2 den + 57 - Z.log2 d) in
    let num := d * 2 ^ s in
    let q := num / den in
    let sticky := if num mod den =? 0 then 0 else 1 in
    binary_normalize prec emax (2 * q + sticky) (- s - 1) false.

(** Exact comparison of an integer with a float, as CPython's
    [float_richcompare] does it; [None] when the float is a NaN. *)
Definition Z_compare (z : Z) (f : float) : option comparison :=
  match f with
  | S754_nan => None
  | S754_infinity s => Some (if s then Gt else Lt)
  | S754_zero _ => Some (z ?= 0)
  | S754_finite s m e =>
      let v := if s then Zneg m else Zpos m in
      Some (if 0 <=? e then z ?= v * 2 ^ e else z * 2 ^ (- e) ?= v)
  end.

Definition zero : float := S754_zero false.
Definition one : float := Eval vm_compute in of_Z 1.
(** The literal [1.2]. *)
Definition f1_2 : float := Eval vm_compute in of_decimal 12 (-1).

End Float.

(** [float(s)] for a string: [None] is the [ValueError] of CPython's
    [float_from_string]. *)
Module FloatParse.

Local Open Scope N_scope.

Definition is_digit (c : codepoint) : bool := (48 <=? c) && (c <=? 57).
Definition digit (c : codepoint) : Z := Z.of_N (c - 48).

(** What [float] strips at both ends: ASCII blanks, and the non-ASCII
    spaces, which it first turns into blanks. *)
Definition is_float_space (c : codepoint) : bool :=
  ((9 <=? c) && (c <=? 13)) || (c =? 32) || ((127 <=? c) && Str.isspace c).

Fixpoint lskip (s : pystr) : pystr :=
  match s with
  | c :: s' => if is_float_space c then lskip s' else s
  | [] => []
  end.

Definition trim (s : pystr) : pystr := rev (lskip (rev (lskip s))).

(** Underscores go, when each stands between two digits. *)
Fixpoint drop_underscores (prev : codepoint) (s : pystr) : option pystr :=
  match s with
  | [] => if prev =? 95 then None else Some []
  | c :: s' =>
      if c =? 95 then
        if is_digit prev then drop_underscores c s' else None
      else if (prev =? 95) && negb (is_digit c) then None
      else option_map (cons c) (drop_underscores c s')
  end.

(** A run of digits: the number read so far, how many digits, the rest. *)
Fixpoint digits (s : pystr) (acc : Z) (n : Z) : Z * Z * pystr :=
  match s with
  | c :: s' =>
      if is_digit c then digits s' (10 * acc + digit c)%Z (n + 1)%Z
      else (acc, n, s)
  | [] => (acc, n, [])
  end.

Definition sign (s : pystr) : bool * pystr :=
  match s with
  | 45 :: s' => (true, s')
  | 43 :: s' => (false, s')
  | _ => (false, s)
  end.

Definition with_sign (neg : bool) (f : float) : float :=
  if neg then SFopp f else f.

(** [inf], [infinity] and [nan], in any case. *)
Definition inf_or_nan (s : pystr) : option float :=
  let l := Str.lower s in
  if pystr_eqb l (py "inf") || pystr_eqb l (py "infinity")
  then Some (S754_infinity false)
  else if pystr_eqb l (py "nan") then Some S754_nan
  else None.

(** The exponent part: [e] or [E], a sign, digits; all of the rest. *)
Definition exponent (s : pystr) : option Z :=
  match s with
  | [] => Some 0%Z
  | c :: s' =>
      if (c =? 101) || (c =? 69) then
        let '(neg, s1) := sign s' in
        match digits s1 0%Z 0%Z with
        | (x, n, []) =>
            if (n =? 0)%Z then None else Some (if neg then (- x)%Z else x)
        | _ => None
        end
      else None
  end.

(** Digits, a point, digits, an exponent; one digit at least before the
    exponent. *)
Definition decimal (s : pystr) : option float :=
  let '(d1, n1, s1) := digits s 0%Z 0%Z in
  let '(d2, n2, s2) :=
    match s1 with
    | 46 :: s1' => digits s1' d1 0%Z
    | _ => (d1, 0%Z, s1)
    end in
  if (n1 + n2 =? 0)%Z then None
  else match exponent s2 with
       | Some x => Some (Float.of_decimal d2 (x - n2))
       | None => None
       end.

Definition float_of_str (s : pystr) : option float :=
  match drop_underscores 0 (trim s) with
  | None => None
  | Some t =>
      let '(neg, u) := sign t in
      match inf_or_nan u with
      | Some f => Some (with_sign neg f)
      | None => option_map (with_sign neg) (decimal u)
      end
  end.

End FloatParse.

Definition float_of_str := FloatParse.float_of_str.

(** ** Dictionaries: association lists in insertion order *)

Module Dict.
Section Dict.

Variable V : Type.

Definition t := list (pystr * V).

(** [d.get(k)] *)
Fixpoint get (d : t) (k : pystr) : option V :=
  match d with
  | [] => None
  | (k', v) :: d' => if pystr_eqb k k' then Some v else get d' k
  end.

(** [d.get(k, dflt)] *)
Definition get_default (d : t) (k : pystr) (dflt : V) : V :=
  match get d k with
  | Some v => v
  | None => dflt
  end.

(** [d[k] = v]: a key already there keeps its place, a new one goes last. *)
Fixpoint set (d : t) (k : pystr) (v : V) : t :=
  match d with
  | [] => [(k, v)]
  | (k', v') :: d' =>
      if pystr_eqb k k' then (k', v) :: d' else (k', v') :: set d' k v
  end.

Definition keys (d : t) : list pystr := map fst d.
Definition values (d : t) : list V := map snd d.

(** [{k: v for ...}] and [dict(pairs)]: the pairs are stored one by one. *)
Definition of_pairs (kvs : list (pystr * V)) : t :=
  fold_left (fun d kv => set d (fst kv) (snd kv)) kvs [].

End Dict.
End Dict.

(** ** Values *)

Inductive pyval : Type :=
| VNone
| VBool (b : bool)
| VInt (z : Z)
| VFloat (f : float)
| VStr (s : pystr)
| VList (l : list pyval)
| VDict (d : list (pystr * pyval)).

Definition dict := Dict.t pyval.

(** [float(v)] *)
Definition py_float (v : pyval) : result float :=
  match v with
  | VFloat f => Ok f
  | VInt z =>
      match Float.of_Z z with
      | S754_infinity _ => Raise OverflowError
      | f => Ok f
      end
  | VBool b => Ok (if b then Float.one else Float.zero)
  | VStr s =>
      match float_of_str s with
      | Some f => Ok f
      | None => Raise (ValueError "could not convert string to float")
      end
  | VNone | VList _ | VDict _ => Raise TypeError
  end.

(** [not v] is [negb (truthy v)]. *)
Definition truthy (v : pyval) : bool :=
  match v with
  | VNone => false
  | VBool b => b
  | VInt z => negb (z =? 0)%Z
  | VFloat f => negb (SFeqb f Float.zero)
  | VStr s => match s with [] => false | _ :: _ => true end
  | VList l => match l with [] => false | _ :: _ => true end
  | VDict d => match d with [] => false | _ :: _ => true end
  end.

(** Ordering of a value against a float.  Numbers ([int], [bool], [float])
    compare exactly; any other value against a float raises [TypeError];
    a NaN on either side makes every ordering false. *)
Definition compare_float (v : pyval) (f : float) : result (option comparison) :=
  match v with
  | VFloat g => Ok (SFcompare g f)
  | VInt z => Ok (Float.Z_compare z f)
  | VBool b => Ok (Float.Z_compare (Z.b2z b) f)
  | VNone | VStr _ | VList _ | VDict _ => Raise TypeError
  end.

(** [v < f] *)
Definition lt_float (v : pyval) (f : float) : result bool :=
  c <- compare_float v f ;;
  Ok (match c with Some Lt => true | _ => false end).

(** [v > f] *)
Definition gt_float (v : pyval) (f : float) : result bool :=
  c <- compare_float v f ;;
  Ok (match c with Some Gt => true | _ => false end).

(** [v <= f] *)
Definition le_float (v : pyval) (f : float) : result bool :=
  c <- compare_float v f ;;
  Ok (match c with Some (Lt | Eq) => true | _ => false end).

(** [f <= v] *)
Definition float_le (f : float) (v : pyval) : result bool :=
  c <- compare_float v f ;;
  Ok (match c with Some (Gt | Eq) => true | _ => false end).

(** ** [json.loads]

    The decoder of the [json] module with its default settings, on a
    [str]: strict strings, [NaN], [Infinity] and [-Infinity] accepted,
    integers without fraction or exponent decoded as [int].  Every failure
    of the decoder is a [JSONDecodeError]. *)

Module Json.

Local Open Scope N_scope.

(** The outcome of a scanner: a value and the text after it, no value, or
    nesting deeper than the scanner descends. *)
Inductive pres (A : Type) : Type :=
| POk (a : A) (rest : pystr)
| PFail
| PDeep.
Arguments POk {A} a rest.
Arguments PFail {A}.
Arguments PDeep {A}.

Definition is_ws (c : codepoint) : bool :=
  (c =? 32) || (c =? 9) || (c =? 10) || (c =? 13).

Fixpoint skip_ws (s : pystr) : pystr :=
  match s with
  | c :: s' => if is_ws c then skip_ws s' else s
  | [] => []
  end.

Definition hex_val (c : codepoint) : option N :=
  if (48 <=? c) && (c <=? 57) then Some (c - 48)
  else if (97 <=? c) && (c <=? 102) then Some (c - 87)
  else if (65 <=? c) && (c <=? 70) then Some (c - 55)
  else None.

Definition hex4 (a b c d : codepoint) : option N :=
  match hex_val a, hex_val b, hex_val c, hex_val d with
  | Some x, Some y, Some z, Some w => Some (((x * 16 + y) * 16 + z) * 16 + w)
  | _, _, _, _ => None
  end.

Definition escape (c : codepoint) : option codepoint :=
  if c =? 34 then Some 34
  else if c =? 92 then Some 92
  else if c =? 47 then Some 47
  else if c =? 98 then Some 8
  else if c =? 102 then Some 12
  else if c =? 110 then Some 10
  else if c =? 114 then Some 13
  else if c =? 116 then Some 9
  else None.

Definition is_high (u : N) : bool := (55296 <=? u) && (u <=? 56319).
Definition is_low (u : N) : bool := (56320 <=? u) && (u <=? 57343).
Definition join_surrogates (u u2 : N) : N :=
  65536 + ((u - 55296) * 1024 + (u2 - 56320)).

(** The text after an opening quote, up to the closing one. *)
Fixpoint scanstring (s : pystr) (acc : pystr) : option (pystr * pystr) :=
  match s with
  | [] => None
  | c :: s1 =>
      if c =? 34 then Some (rev acc, s1)
      else if c =? 92 then
        match s1 with
        | [] => None
        | e :: s2 =>
            if e =? 117 then
              match s2 with
              | h1 :: h2 :: h3 :: h4 :: s3 =>
                  match hex4 h1 h2 h3 h4 with
                  | None => None
                  | Some u =>
                      match s3 with
                      | b1 :: b2 :: g1 :: g2 :: g3 :: g4 :: s4 =>
                          if is_high u && (b1 =? 92) && (b2 =? 117) then
                            match hex4 g1 g2 g3 g4 with
                            | None => None
                            | Some u2 =>
                                if is_low u2
                                then scanstring s4 (join_surrogates u u2 :: acc)
                                else scanstring s3 (u :: acc)
                            end
                          else scanstring s3 (u :: acc)
                      | _ => scanstring s3 (u :: acc)
                      end
                  end
              | _ => None
              end
            else
              match escape e with
              | Some x => scanstring s2 (x :: acc)
              | None => None
              end
        end
      else if c <? 32 then None
      else scanstring s1 (c :: acc)
  end.

Definition is_digit := FloatParse.is_digit.

(** The longest run of digits at the head, and the rest. *)
Fixpoint span_digits (s : pystr) : pystr * pystr :=
  match s with
  | c :: s' =>
      if is_digit c then let '(ds, r) := span_digits s' in (c :: ds, r)
      else ([], s)
  | [] => ([], [])
  end.

Definition int_of_digits (ds : pystr) : Z :=
  fold_left (fun acc c => (10 * acc + FloatParse.digit c)%Z) ds 0%Z.

(** An optional minus, then a lone 0 or a run of digits that starts with
    1-9: the text matched and the rest. *)
Definition integer_part (s : pystr) : option (pystr * pystr) :=
  let '(neg, s1) :=
    match s with
    | c :: s' => if c =? 45 then ([45], s') else ([], s)
    | [] => ([], s)
    end in
  match s1 with
  | c :: s2 =>
      if c =? 48 then Some (neg ++ [48], s2)
      else if is_digit c then
        let '(ds, r) := span_digits s2 in Some (neg ++ c :: ds, r)
      else None
  | [] => None
  end.

(** An optional fraction: a point and one digit or more. *)
Definition frac_part (s : pystr) : pystr * pystr :=
  match s with
  | c :: s1 =>
      if c =? 46 then
        match span_digits s1 with
        | ([], _) => ([], s)
        | (ds, r) => (c :: ds, r)
        end
      else ([], s)
  | [] => ([], s)
  end.

(** An optional exponent: e or E, an optional sign, one digit or more. *)
Definition exp_part (s : pystr) : pystr * pystr :=
  match s with
  | c :: s1 =>
      if (c =? 101) || (c =? 69) then
        let '(sg, s2) :=
          match s1 with
          | x :: s1' => if (x =? 45) || (x =? 43) then ([x], s1') else ([], s1)
          | [] => ([], s1)
          end in
        match span_digits s2 with
        | ([], _) => ([], s)
        | (ds, r) => (c :: sg ++ ds, r)
        end
      else ([], s)
  | [] => ([], s)
  end.

Definition scan_number (s : pystr) : option (pyval * pystr) :=
  match integer_part s with
  | None => None
  | Some (integer, s1) =>
      let '(frac, s2) := frac_part s1 in
      let '(exp, s3) := exp_part s2 in
      match frac, exp with
      | [], [] =>
          Some (VInt (match integer with
                      | c :: ds =>
                          if c =? 45 then (- int_of_digits ds)%Z
                          else int_of_digits integer
                      | [] => 0%Z
                      end), s3)
      | _, _ =>
          match float_of_str (integer ++ frac ++ exp) with
          | Some f => Some (VFloat f, s3)
          | None => None
          end
      end
  end.

(** The scalars: strings, the three names, numbers, the three constants. *)
Definition scan_scalar (s : pystr) : option (pyval * pystr) :=
  match s with
  | [] => None
  | c :: s1 =>
      if c =? 34 then
        match scanstring s1 [] with
        | Some (str, r) => Some (VStr str, r)
        | None => None
        end
      else if Str.startswith s (py "null") then Some (VNone, skipn 4 s)
      else if Str.startswith s (py "true") then Some (VBool true, skipn 4 s)
      else if Str.startswith s (py "false") then Some (VBool false, skipn 5 s)
      else
        match scan_number s with
        | Some r => Some r
        | None =>
            if Str.startswith s (py "NaN") then Some (VFloat S754_nan, skipn 3 s)
            else if Str.startswith s (py "Infinity")
            then Some (VFloat (S754_infinity false), skipn 8 s)
            else if Str.startswith s (py "-Infinity")
            then Some (VFloat (S754_infinity true), skipn 9 s)
            else None
        end
  end.

Section Containers.

(** The scanner for the values one level down. *)
Variable scan : pystr -> pres pyval.

(** The items of an array, from the first one; [n] bounds their number. *)
Fixpoint array_items (n : nat) (s : pystr) (acc : list pyval)
  : pres (list pyval) :=
  match n with
  | O => PDeep
  | S n' =>
      match scan s with
      | POk v s1 =>
          match skip_ws s1 with
          | c :: s2 =>
              if c =? 93 then POk (rev (v :: acc)) s2
              else if c =? 44 then array_items n' (skip_ws s2) (v :: acc)
              else PFail
          | [] => PFail
          end
      | PFail => PFail
      | PDeep => PDeep
      end
  end.

(** The members of an object, from the text after the quote that opens the
    first key. *)
Fixpoint object_members (n : nat) (s : pystr) (acc : list (pystr * pyval))
  : pres (list (pystr * pyval)) :=
  match n with
  | O => PDeep
  | S n' =>
      match scanstring s [] with
      | None => PFail
      | Some (key, s1) =>
          match skip_ws s1 with
          | c :: s2 =>
              if c =? 58 then
                match scan (skip_ws s2) with
                | POk v s3 =>
                    match skip_ws s3 with
                    | d :: s4 =>
                        if d =? 125 then POk (rev ((key, v) :: acc)) s4
                        else if d =? 44 then
                          match skip_ws s4 with
                          | q :: s5 =>
                              if q =? 34
                              then object_members n' s5 ((key, v) :: acc)
                              else PFail
                          | [] => PFail
                          end
                        else PFail
                    | [] => PFail
                    end
                | PFail => PFail
                | PDeep => PDeep
                end
              else PFail
          | [] => PFail
          end
      end
  end.

End Containers.

(** [scan_once]: a value at the head of [s]; [depth] bounds the nesting. *)
Fixpoint scan_once (depth : nat) (s : pystr) : pres pyval :=
  match depth with
  | O => PDeep
  | S depth' =>
      match s with
      | [] => PFail
      | c :: s1 =>
          if c =? 91 then
            match skip_ws s1 with
            | d :: s2 =>
                if d =? 93 then POk (VList []) s2
                else
                  match array_items (scan_once depth') (List.length s)
                          (d :: s2) [] with
                  | POk l r => POk (VList l) r
                  | PFail => PFail
                  | PDeep => PDeep
                  end
            | [] => PFail
            end
          else if c =? 123 then
            match skip_ws s1 with
            | d :: s2 =>
                if d =? 125 then POk (VDict []) s2
                else if d =? 34 then
                  match object_members (scan_once depth') (List.length s) s2 [] with
                  | POk kvs r => POk (VDict (Dict.of_pairs kvs)) r
                  | PFail => PFail
                  | PDeep => PDeep
                  end
                else PFail
            | [] => PFail
            end
          else
            match scan_scalar s with
            | Some (v, r) => POk v r
            | None => PFail
            end
      end
  end.

(** [json.loads(s)].  Neither bound is reached: every level of nesting and
    every item takes a character of [s] (see [loads_not_deep]). *)
Definition loads (s : pystr) : result pyval :=
  if Str.startswith s [65279] then Raise JSONDecodeError
  else
    match scan_once (S (List.length s)) (skip_ws s) with
    | POk v r =>
        match skip_ws r with
        | [] => Ok v
        | _ :: _ => Raise JSONDecodeError
        end
    | PFail => Raise JSONDecodeError
    | PDeep => Raise (OtherException "RecursionError")
    end.

End Json.

(** ** The pattern of the tolerant scan

    [re.finditer] on the pattern of [inference].  Group 1 is a lazy run,
    one or more, of label characters (anything but a blank, a double quote,
    a colon, a point and a comma), tried at each length in turn; then an
    optional double quote, blanks, a colon, blanks, and group 2, the
    longest run of digits and points.  Giving back blanks, or characters of group 2,
    never helps a later part of the pattern (a blank is neither a colon
    nor a digit, and group 2 is last), so both runs are taken whole. *)

Module Re.

Local Open Scope N_scope.

(** A character of group 1. *)
Definition label_char (c : codepoint) : bool :=
  negb (Str.isspace c || (c =? 34) || (c =? 58) || (c =? 46) || (c =? 44)).

(** A character of group 2. *)
Definition number_char (c : codepoint) : bool :=
  FloatParse.is_digit c || (c =? 46).

Fixpoint span_number (s : pystr) : pystr * pystr :=
  match s with
  | c :: s' =>
      if number_char c then let '(ds, r) := span_number s' in (c :: ds, r)
      else ([], s)
  | [] => ([], [])
  end.

(** Blanks, a colon, blanks, group 2: group 2 and the text after it. *)
Definition colon_number (s : pystr) : option (pystr * pystr) :=
  match Str.lstrip s with
  | c :: s1 =>
      if c =? 58 then
        match span_number (Str.lstrip s1) with
        | ([], _) => None
        | (num, r) => Some (num, r)
        end
      else None
  | [] => None
  end.

(** What follows group 1: taking the optional quote first, leaving it
    next. *)
Definition tail (s : pystr) : option (pystr * pystr) :=
  match s with
  | c :: s1 =>
      if c =? 34 then
        match colon_number s1 with
        | Some r => Some r
        | None => colon_number s
        end
      else colon_number s
  | [] => None
  end.

(** Group 1 holds [rev acc] so far and [s] follows it: the shortest
    extension after which the tail matches. *)
Fixpoint label (s : pystr) (acc : pystr) : option (pystr * pystr * pystr) :=
  match tail s with
  | Some (num, r) => Some (rev acc, num, r)
  | None =>
      match s with
      | c :: s' => if label_char c then label s' (c :: acc) else None
      | [] => None
      end
  end.

(** A match that starts at the head of [s]: the two groups and the text
    after the match. *)
Definition match_here (s : pystr) : option (pystr * pystr * pystr) :=
  match s with
  | c :: s' => if label_char c then label s' [c] else None
  | [] => None
  end.

(** The matches from left to right, without overlap: [skip] characters
    belong to the match before and are passed over. *)
Fixpoint finditer_from (s : pystr) (skip : nat) : list (pystr * pystr) :=
  match s with
  | [] => []
  | _ :: s' =>
      match skip with
      | S k => finditer_from s' k
      | O =>
          match match_here s with
          | Some (g1, g2, r) =>
              (g1, g2) :: finditer_from s' (List.length s' - List.length r)
          | None => finditer_from s' 0
          end
      end
  end.

(** The groups (1, 2) of each match. *)
Definition finditer (content : pystr) : list (pystr * pystr) :=
  finditer_from content 0.

End Re.

(** ** Operations on values *)

(** [v.get(k, dflt)]: only a dict has the method. *)
Definition dict_get (v : pyval) (k : pystr) (dflt : pyval) : result pyval :=
  match v with
  | VDict d => Ok (Dict.get_default d k dflt)
  | _ => Raise AttributeError
  end.

(** [v[k] = x] for a string key [k]. *)
Definition setitem (v : pyval) (k : pystr) (x : pyval) : result pyval :=
  match v with
  | VDict d => Ok (VDict (Dict.set d k x))
  | _ => Raise TypeError
  end.

(** [d[k]] on a dict of the program. *)
Definition getitem {V} (d : Dict.t V) (k : pystr) : result V :=
  match Dict.get d k with
  | Some v => Ok v
  | None => Raise KeyError
  end.

(** [for x in v] *)
Definition py_iter (v : pyval) : result (list pyval) :=
  match v with
  | VList l => Ok l
  | VDict d => Ok (map VStr (Dict.keys d))
  | VStr s => Ok (map (fun c => VStr [c]) s)
  | VNone | VBool _ | VInt _ | VFloat _ => Raise TypeError
  end.

(** [min(a, v)]: the first argument unless the second is smaller. *)
Definition py_min (a : float) (v : pyval) : result pyval :=
  b <- lt_float v a ;;
  Ok (if b then v else VFloat a).

(** [max(a, v)]: the first argument unless the second is greater. *)
Definition py_max (a : float) (v : pyval) : result pyval :=
  b <- gt_float v a ;;
  Ok (if b then v else VFloat a).

(** ** The world outside

    The libraries the program drives (tokenizer, language model, the
    synthesis engine) keep a state of type [ext]; the program itself
    prints.  An action runs in a world and leaves one behind, also when
    it raises. *)

Inductive line : Type :=
| Unavailable (exc : exn)       (* >> QwenEmotion unavailable (...) *)
| InferenceFailed (exc : exn).  (* >> QwenEmotion inference failed (...) *)

Record world (ext : Type) : Type := World {
  outside : ext;
  stdout : list line
}.
Arguments World {ext} outside stdout.
Arguments outside {ext} _.
Arguments stdout {ext} _.

Definition M (ext A : Type) : Type := world ext -> result A * world ext.

Definition ret {ext A} (a : A) : M ext A := fun w => (Ok a, w).

Definition raise {ext A} (e : exn) : M ext A := fun w => (Raise e, w).

Definition bind {ext A B} (m : M ext A) (k : A -> M ext B) : M ext B :=
  fun w =>
    match m w with
    | (Ok a, w') => k a w'
    | (Raise e, w') => (Raise e, w')
    end.

(** [try: m / except Exception as exc: h exc] *)
Definition try_except {ext A} (m : M ext A) (h : exn -> M ext A) : M ext A :=
  fun w =>
    match m w with
    | (Ok a, w') => (Ok a, w')
    | (Raise e, w') => h e w'
    end.

(** A pure computation that may raise. *)
Definition lift {ext A} (r : result A) : M ext A := fun w => (r, w).

(** A call into the libraries. *)
Definition call {ext A} (f : ext -> result A * ext) : M ext A :=
  fun w =>
    let '(r, x) := f (outside w) in
    (r, World x (stdout w)).

(** [print(l)] *)
Definition print {ext} (l : line) : M ext unit :=
  fun w => (Ok tt, World (outside w) (stdout w ++ [l])).

Notation "x <~ c ;; k" := (bind c (fun x => k))
  (at level 61, c at next level, right associativity).

(** A class that can stand as [infer_v2.QwenEmotion]: its marker
    ([getattr(cls, "_is_safe_wrapper", False)]), its constructor and its
    [inference] method. *)
Record pyclass (ext : Type) : Type := PyClass {
  instance : Type;
  _is_safe_wrapper : bool;
  init : pystr -> M ext instance;
  inference : instance -> pystr -> M ext dict
}.
Arguments PyClass {ext} instance _is_safe_wrapper init inference.
Arguments instance {ext} _.
Arguments _is_safe_wrapper {ext} _.
Arguments init {ext} _ _ _.
Arguments inference {ext} _ _ _ _.

(** ** [CPUQwenEmotion] *)

(** The tokenizer and the language model, as [CPUQwenEmotion] drives
    them: loading both from a directory; the ids generated for a text
    (chat template, tokenization, [generate], the prompt cut off the
    front); decoding ids to text. *)
Record backend (ext : Type) : Type := Backend {
  handle : Type;
  from_pretrained : pystr -> ext -> result handle * ext;
  generate : handle -> pystr -> ext -> result (list Z) * ext;
  decode : handle -> list Z -> ext -> result pystr * ext
}.
Arguments Backend {ext} handle from_pretrained generate decode.
Arguments handle {ext} _.
Arguments from_pretrained {ext} _ _ _.
Arguments generate {ext} _ _ _ _.
Arguments decode {ext} _ _ _ _.

Module CPUQwenEmotion.

Local Open Scope N_scope.

Definition cn_happy : pystr := [0x9ad8; 0x5174].
Definition cn_angry : pystr := [0x6124; 0x6012].
Definition cn_sad : pystr := [0x60b2; 0x4f24].
Definition cn_afraid : pystr := [0x6050; 0x60e7].
Definition cn_disgusted : pystr := [0x53cd; 0x611f].
Definition cn_melancholic : pystr := [0x4f4e; 0x843d].
Definition cn_surprised : pystr := [0x60ca; 0x8bb6].
Definition cn_calm : pystr := [0x81ea; 0x7136].

Definition cn_key_to_en : Dict.t pystr :=
  [ (cn_happy, py "happy");
    (cn_angry, py "angry");
    (cn_sad, py "sad");
    (cn_afraid, py "afraid");
    (cn_disgusted, py "disgusted");
    (cn_melancholic, py "melancholic");
    (cn_surprised, py "surprised");
    (cn_calm, py "calm") ].

Definition desired_vector_order : list pystr :=
  [ cn_happy; cn_angry; cn_sad; cn_afraid;
    cn_disgusted; cn_melancholic; cn_surprised; cn_calm ].

(** A set in the source; only membership tests are made on it. *)
Definition melancholic_words : list pystr :=
  [ cn_melancholic; py "melancholy"; py "melancholic";
    py "depression"; py "depressed"; py "gloomy" ].

Definition max_score : float := Float.f1_2.
Definition min_score : float := Float.zero.

Definition clamp_score (value : pyval) : result pyval :=
  m <- py_min max_score value ;;
  py_max min_score m.

(** [all(val <= 0.0 for val in vs)] *)
Fixpoint all_le_zero (vs : list pyval) : result bool :=
  match vs with
  | [] => Ok true
  | val :: vs' =>
      b <- le_float val Float.zero ;;
      if b then all_le_zero vs' else Ok false
  end.

Definition convert (content : pyval) : result dict :=
  items <- rmap (fun cn_key =>
                   en <- getitem cn_key_to_en cn_key ;;
                   raw <- dict_get content cn_key (VFloat Float.zero) ;;
                   score <- clamp_score raw ;;
                   Ok (en, score))
                desired_vector_order ;;
  let emotion_dict := Dict.of_pairs items in
  all_zero <- all_le_zero (Dict.values emotion_dict) ;;
  Ok (if all_zero
      then Dict.set emotion_dict (py "calm") (VFloat Float.one)
      else emotion_dict).

(** Where the answer starts in the generated ids: after the last 151668,
    at 0 when there is none. *)
Fixpoint index (x : Z) (l : list Z) : option nat :=
  match l with
  | [] => None
  | y :: l' => if (x =? y)%Z then Some O else option_map S (index x l')
  end.

Definition answer_start (output_ids : list Z) : nat :=
  match index 151668%Z (rev output_ids) with
  | Some i => List.length output_ids - i
  | None => O
  end.

(** The tolerant scan: a dict of the matches, each number through
    [float]. *)
Definition scan_content (content : pystr) : result pyval :=
  items <- rmap (fun m : pystr * pystr =>
                   match float_of_str (snd m) with
                   | Some f => Ok (fst m, VFloat f)
                   | None =>
                       Raise (ValueError "could not convert string to float")
                   end)
                (Re.finditer content) ;;
  Ok (VDict (Dict.of_pairs items)).

(** [json.loads(content)], and the scan when that raises
    [JSONDecodeError]. *)
Definition parse_content (content : pystr) : result pyval :=
  match Json.loads content with
  | Ok parsed => Ok parsed
  | Raise e => if is_JSONDecodeError e then scan_content content else Raise e
  end.

(** [any(word in lower for word in self.melancholic_words)] *)
Definition has_melancholic_word (text_input : pystr) : bool :=
  let lower := Str.lower text_input in
  existsb (fun word => Str.contains lower word) melancholic_words.

(** The two scores change places; both right-hand sides are read before
    either key is written. *)
Definition swap_sad_melancholic (parsed : pyval) : result pyval :=
  a <- dict_get parsed cn_melancholic (VFloat Float.zero) ;;
  b <- dict_get parsed cn_sad (VFloat Float.zero) ;;
  parsed1 <- setitem parsed cn_sad a ;;
  setitem parsed1 cn_melancholic b.

(** The raw mapping after the two lines on melancholic words. *)
Definition disambiguate (text_input : pystr) (parsed : pyval) : result pyval :=
  if has_melancholic_word text_input then swap_sad_melancholic parsed
  else Ok parsed.

(** [inference] from the decoded [content] on. *)
Definition classify (text_input content : pystr) : result dict :=
  parsed <- parse_content content ;;
  parsed' <- disambiguate text_input parsed ;;
  convert parsed'.

Section Class.

Variable ext : Type.
Variable B : backend ext.

Definition __init__ (model_dir : pystr) : M ext (handle B) :=
  call (from_pretrained B model_dir).

Definition inference (self : handle B) (text_input : pystr) : M ext dict :=
  output_ids <~ call (generate B self text_input) ;;
  content <~ call (decode B self
                     (skipn (answer_start output_ids) output_ids)) ;;
  lift (classify text_input content).

Definition cls : pyclass ext :=
  PyClass (handle B) false __init__ inference.

End Class.

End CPUQwenEmotion.

(** ** [SafeQwenEmotion] and [_wrap_qwen_with_fallback] *)

Module SafeQwenEmotion.

Section Class.

Variable ext : Type.
Variable original_cls : pyclass ext.

Record self : Type := Self {
  _inner : option (instance original_cls);
  _inner_exc : option exn
}.

(** [{"calm": 1.0}] *)
Definition neutral : dict := [(py "calm", VFloat Float.one)].

Definition __init__ (model_dir : pystr) : M ext self :=
  try_except
    (inner <~ init original_cls model_dir ;;
     ret (Self (Some inner) None))
    (fun exc =>
       _ <~ print (Unavailable exc) ;;
       ret (Self None (Some exc))).

Definition inference (s : self) (text_input : pystr) : M ext dict :=
  match _inner s with
  | None => ret neutral
  | Some inner =>
      try_except
        (inference original_cls inner text_input)
        (fun exc =>
           _ <~ print (InferenceFailed exc) ;;
           ret neutral)
  end.

Definition cls : pyclass ext := PyClass self true __init__ inference.

End Class.

End SafeQwenEmotion.

Section Setup.

Variable ext : Type.

(** The module attribute [infer_v2.QwenEmotion]: a class, or nothing
    ([getattr(infer_v2, "QwenEmotion", None)]). *)
Definition attribute : Type := option (pyclass ext).

(** The attribute after [_maybe_patch_qwen_for_cpu()], once its two
    imports have succeeded. *)
Definition _maybe_patch_qwen_for_cpu (cuda_is_available : bool)
    (B : backend ext) (QwenEmotion : attribute) : attribute :=
  if cuda_is_available then QwenEmotion
  else Some (CPUQwenEmotion.cls B).

(** The attribute after [_wrap_qwen_with_fallback()]. *)
Definition _wrap_qwen_with_fallback (QwenEmotion : attribute) : attribute :=
  match QwenEmotion with
  | None => None
  | Some original_cls =>
      if _is_safe_wrapper original_cls then Some original_cls
      else Some (SafeQwenEmotion.cls original_cls)
  end.

End Setup.

(** ** [_parse_vector] *)

Definition parse_vector_message : string :=
  "Could not parse emotion_vector; use JSON or comma separated numbers".

(** [[float(tok) for tok in raw.split(",") if tok.strip()]] *)
Definition comma_separated (raw : pystr) : result pyval :=
  floats <- rmap (fun tok => py_float (VStr tok))
                 (filter (fun tok => truthy (VStr (Str.strip tok)))
                         (Str.split 44%N raw)) ;;
  Ok (VList (map VFloat floats)).

(** The body of the [try], and the [except] clause for [ValueError] and
    [JSONDecodeError]. *)
Definition read_values (raw : pystr) : result pyval :=
  match (if Str.startswith raw (py "[") then Json.loads raw
         else comma_separated raw) with
  | Ok values => Ok values
  | Raise exc =>
      if is_ValueError exc then Raise (ValueError parse_vector_message)
      else Raise exc
  end.

Definition _parse_vector (raw : option pystr) : result (option (list float)) :=
  match raw with
  | None => Ok None
  | Some raw =>
      if negb (truthy (VStr raw)) then Ok None
      else
        let raw := Str.strip raw in
        if negb (truthy (VStr raw)) then Ok None
        else
          values <- read_values raw ;;
          if negb (truthy values) then Ok None
          else
            items <- py_iter values ;;
            floats <- rmap py_float items ;;
            Ok (Some floats)
  end.

(** ** [Predictor.predict] *)

(** The controls that [predict] hands over as they come. *)
Record controls : Type := Controls {
  interval_silence_ms : Z;
  max_text_tokens_per_segment : Z;
  top_p : float;
  top_k : Z;
  temperature : float;
  length_penalty : float;
  num_beams : Z;
  repetition_penalty : float;
  max_mel_tokens : Z
}.

Record request : Type := Request {
  text : pystr;
  speaker_audio : pystr;
  emotion_audio : option pystr;
  emotion_scale : float;
  emotion_vector : option pystr;
  emotion_text : option pystr;
  randomize_emotion : bool;
  settings : controls
}.

(** The keyword arguments of [self.tts.infer]. *)
Record infer_args : Type := InferArgs {
  spk_audio_prompt : pystr;
  arg_text : pystr;
  output_path : pystr;
  emo_audio_prompt : option pystr;
  emo_alpha : float;
  emo_vector : option (list float);
  use_emo_text : bool;
  emo_text : option pystr;
  use_random : bool;
  arg_settings : controls
}.

(** [emotion_text is not None and emotion_text.strip() != ""] *)
Definition text_given (emotion_text : option pystr) : bool :=
  match emotion_text with
  | None => false
  | Some t => negb (pystr_eqb (Str.strip t) [])
  end.

Definition infer_kwargs (req : request) (emotion_values : option (list float))
    (output_path : pystr) : infer_args :=
  {| spk_audio_prompt := speaker_audio req;
     arg_text := text req;
     output_path := output_path;
     emo_audio_prompt := emotion_audio req;
     emo_alpha := emotion_scale req;
     emo_vector := emotion_values;
     use_emo_text := text_given (emotion_text req);
     emo_text := emotion_text req;
     use_random := randomize_emotion req;
     arg_settings := settings req |}.

Section Predictor.

Variable ext : Type.

(** [tempfile.mkdtemp()] and [self.tts.infer(...)]. *)
Variable mkdtemp : ext -> result pystr * ext.
Variable tts_infer : infer_args -> ext -> result pystr * ext.

Definition predict (req : request) : M ext pystr :=
  emotion_values <~ lift (_parse_vector (emotion_vector req)) ;;
  tmp_dir <~ call mkdtemp ;;
  let output_path := tmp_dir ++ py "/output.wav" in
  call (tts_infer (infer_kwargs req emotion_values output_path)).

End Predictor.

(** ** Vocabulary of the statements *)

(** [int], [bool] and [float]: what orders against a float. *)
Definition is_number (v : pyval) : bool :=
  match v with
  | VInt _ | VBool _ | VFloat _ => true
  | VNone | VStr _ | VList _ | VDict _ => false
  end.

(** A raw classification: a dict from label tokens to scores, each score
    a number. *)
Definition raw_classification (content : pyval) : bool :=
  match content with
  | VDict d => forallb (fun kv => is_number (snd kv)) d
  | _ => false
  end.

(** The score read for a label, [content.get(cn_key, 0.0)]. *)
Definition score (d : dict) (cn_key : pystr) : pyval :=
  Dict.get_default d cn_key (VFloat Float.zero).

(** The value of [clamp_score], where it returns. *)
Definition clamp (v : pyval) : pyval :=
  match CPUQwenEmotion.clamp_score v with
  | Ok x => x
  | Raise _ => v
  end.

(** [v <= 0.0] holds. *)
Definition nonpositive (v : pyval) : bool :=
  match le_float v Float.zero with
  | Ok b => b
  | Raise _ => false
  end.

(** [0.0 <= v <= 1.2] holds. *)
Definition in_range (v : pyval) : bool :=
  match float_le CPUQwenEmotion.min_score v,
        le_float v CPUQwenEmotion.max_score with
  | Ok a, Ok b => a && b
  | _, _ => false
  end.

(** The eight labels of a vector, in the order of
    [desired_vector_order]. *)
Definition labels : list pystr :=
  map py ["happy"; "angry"; "sad"; "afraid";
          "disgusted"; "melancholic"; "surprised"; "calm"]%string.

(** The clamped scores of a raw classification, label by label. *)
Definition clamped_scores (d : dict) : dict :=
  map (fun ce : pystr * pystr => (snd ce, clamp (score d (fst ce))))
      CPUQwenEmotion.cn_key_to_en.

(** [word] occurs in [text] up to the case of letters. *)
Definition contains_ci (text word : pystr) : Prop :=
  exists before mid after,
    text = before ++ mid ++ after /\ Str.lower mid = word.

(** The text contains one of the melancholic words, in any case. *)
Definition mentions_melancholy (text_input : pystr) : Prop :=
  exists word,
    In word CPUQwenEmotion.melancholic_words /\ contains_ci text_input word.

(** ** Instances for concrete runs *)

Module Fixture.

Local Open Scope N_scope.

Definition quote : pystr := [34].

Definition half : float := Eval vm_compute in Float.of_decimal 5 (-1).
Definition f0_1 : float := Eval vm_compute in Float.of_decimal 1 (-1).
Definition f0_2 : float := Eval vm_compute in Float.of_decimal 2 (-1).
Definition f0_9 : float := Eval vm_compute in Float.of_decimal 9 (-1).
Definition f0_8 : float := Eval vm_compute in Float.of_decimal 8 (-1).
Definition f10 : float := Eval vm_compute in Float.of_Z 10.

(** The decoded text of a JSON object: sad (cn) 0.9, melancholic (cn)
    0.2. *)
Definition sad_over_melancholic : pystr :=
  py "{" ++ quote ++ CPUQwenEmotion.cn_sad ++ quote ++ py ": 0.9, "
  ++ quote ++ CPUQwenEmotion.cn_melancholic ++ quote ++ py ": 0.2}".

(** The decoded text of a sentence rather than JSON: happy (cn), a colon,
    a blank, 0.5 and a full stop. *)
Definition happy_sentence : pystr := CPUQwenEmotion.cn_happy ++ py ": 0.5.".

(** A raw classification whose only score is calm's own, 0.5. *)
Definition calm_alone : pyval := VDict [(CPUQwenEmotion.cn_calm, VFloat half)].

Definition default_controls : controls :=
  {| interval_silence_ms := 200;
     max_text_tokens_per_segment := 120;
     top_p := f0_8;
     top_k := 30;
     temperature := f0_8;
     length_penalty := Float.zero;
     num_beams := 3;
     repetition_penalty := f10;
     max_mel_tokens := 1500 |}.

(** A request with an explicit vector and an emotion text, both. *)
Definition vector_and_text : request :=
  {| text := py "Hello there.";
     speaker_audio := py "speaker.wav";
     emotion_audio := None;
     emotion_scale := Float.one;
     emotion_vector := Some (py "[0.1,0.2,0,0,0,0,0,0]");
     emotion_text := Some (py "happy");
     randomize_emotion := false;
     settings := default_controls |}.

(** An engine that keeps the arguments of each call, and a fixed
    temporary directory. *)
Definition recorder : Type := list infer_args.

Definition mkdtemp (x : recorder) : result pystr * recorder :=
  (Ok (py "/tmp/tmpdir"), x).

Definition tts_infer (args : infer_args) (x : recorder)
  : result pystr * recorder :=
  (Ok (output_path args), x ++ [args]).

(** A class whose constructor always raises. *)
Definition broken_cls : pyclass unit :=
  PyClass unit false
    (fun _ => raise (OtherException "OSError"))
    (fun _ _ => ret []).

(** A class whose [inference] raises on the empty text and answers any
    other text with one score. *)
Definition moody_cls : pyclass unit :=
  PyClass unit false
    (fun _ => ret tt)
    (fun _ text_input =>
       match text_input with
       | [] => raise (OtherException "RuntimeError")
       | _ :: _ => ret [(py "happy", VFloat half)]
       end).

End Fixture.

(** ** [Predictor.setup]: the class attribute *)

(** The attribute after the first two calls of [setup], the patch for
    hosts without CUDA and the wrapping. *)
Definition setup_attribute {ext : Type} (cuda_is_available : bool)
    (B : backend ext) (QwenEmotion : attribute ext) : attribute ext :=
  _wrap_qwen_with_fallback
    (_maybe_patch_qwen_for_cpu cuda_is_available B QwenEmotion).

(** ** More vocabulary *)

(** The eight scores that [convert] reads are numbers. *)
Definition numbers_read (d : dict) : bool :=
  forallb (fun cn_key => is_number (score d cn_key))
          CPUQwenEmotion.desired_vector_order.

(** [v > 0.0] holds. *)
Definition positive (v : pyval) : bool :=
  match gt_float v Float.zero with
  | Ok b => b
  | Raise _ => false
  end.

(** The tokens of a comma separated string that are not blank. *)
Definition nonblank_tokens (raw : pystr) : list pystr :=
  filter (fun tok => truthy (VStr (Str.strip tok)))
         (Str.split 44%N (Str.strip raw)).

(** A blank or a comma. *)
Definition blank_or_comma (c : codepoint) : bool :=
  Str.isspace c || (c =? 44)%N.

(** The two groups of a match are well formed: a label of one character
    or more without blank, double quote, colon, point or comma; a number
    text of one character or more, digits and points. *)
Definition well_formed_match (m : pystr * pystr) : bool :=
  match fst m, snd m with
  | _ :: _, _ :: _ =>
      forallb Re.label_char (fst m) && forallb Re.number_char (snd m)
  | _, _ => false
  end.


(** ** More instances *)

Module Sample.

(** A tokenizer and model that load, generate the same four ids for every
    text, and decode the answer to a sentence that is no JSON. *)
Definition scripted : backend unit :=
  Backend unit
    (fun _ x => (Ok tt, x))
    (fun _ _ x => (Ok [7; 151668; 8; 9]%Z, x))
    (fun _ _ x => (Ok Fixture.happy_sentence, x)).

(** A request whose explicit vector is no number. *)
Definition bad_vector : request :=
  {| text := py "Hello there.";
     speaker_audio := py "speaker.wav";
     emotion_audio := None;
     emotion_scale := Float.one;
     emotion_vector := Some (py "not,numbers");
     emotion_text := None;
     randomize_emotion := false;
     settings := Fixture.default_controls |}.

(** A request without emotion inputs. *)
Definition plain : request :=
  {| text := py "Hello there.";
     speaker_audio := py "speaker.wav";
     emotion_audio := Some (py "mood.wav");
     emotion_scale := Float.one;
     emotion_vector := Some (py "  ");
     emotion_text := Some (py " ");
     randomize_emotion := true;
     settings := Fixture.default_controls |}.

End Sample.

(** * Properties *)

(** ** Strings and dictionaries *)

Lemma pystr_eqb_eq (a b : pystr) : pystr_eqb a b = true <-> a = b.
Proof.
  revert b; induction a as [|x a IH]; intros [|y b]; simpl;
    try (split; (discriminate || reflexivity)).
  rewrite andb_true_iff, N.eqb_eq, IH.
  split.
  - intros [-> ->]; reflexivity.
  - intros [= -> ->]; split; reflexivity.
Qed.

Lemma pystr_eqb_refl (a : pystr) : pystr_eqb a a = true.
Proof. apply pystr_eqb_eq; reflexivity. Qed.

Lemma pystr_eqb_neq (a b : pystr) : a <> b -> pystr_eqb a b = false.
Proof.
  intros H; destruct (pystr_eqb a b) eqn:E; [|reflexivity].
  apply pystr_eqb_eq in E; contradiction.
Qed.

Section DictFacts.

Variable V : Type.
Implicit Types (d : Dict.t V) (k : pystr) (v : V).

Lemma get_set_same d k v : Dict.get (Dict.set d k v) k = Some v.
Proof.
  induction d as [|[k' v'] d IH]; simpl.
  - rewrite pystr_eqb_refl; reflexivity.
  - destruct (pystr_eqb k k') eqn:E; simpl; rewrite E; [reflexivity|exact IH].
Qed.

Lemma get_set_other d k k' v :
  k <> k' -> Dict.get (Dict.set d k v) k' = Dict.get d k'.
Proof.
  intros Hne; induction d as [|[k0 v0] d IH]; simpl.
  - rewrite pystr_eqb_neq by congruence; reflexivity.
  - destruct (pystr_eqb k k0) eqn:E; simpl.
    + apply pystr_eqb_eq in E; subst k0.
      rewrite pystr_eqb_neq by congruence; reflexivity.
    + rewrite IH; reflexivity.
Qed.

(** Storing under a key that is there changes no key and no place. *)
Lemma keys_set_present d k v :
  In k (Dict.keys d) -> Dict.keys (Dict.set d k v) = Dict.keys d.
Proof.
  induction d as [|[k' v'] d IH]; simpl; [contradiction|].
  intros [->|Hin].
  - rewrite pystr_eqb_refl; reflexivity.
  - destruct (pystr_eqb k k'); simpl; [reflexivity|].
    rewrite IH by assumption; reflexivity.
Qed.

Lemma set_absent d k v :
  ~ In k (Dict.keys d) -> Dict.set d k v = d ++ [(k, v)].
Proof.
  induction d as [|[k' v'] d IH]; simpl; intros Hn; [reflexivity|].
  rewrite pystr_eqb_neq by (intros ->; apply Hn; left; reflexivity).
  rewrite IH; [reflexivity|].
  intros Hin; apply Hn; right; exact Hin.
Qed.

(** Pairs with distinct keys are stored as they come. *)
Lemma of_pairs_nodup (kvs : list (pystr * V)) :
  NoDup (map fst kvs) -> Dict.of_pairs kvs = kvs.
Proof.
  unfold Dict.of_pairs.
  change kvs with ([] ++ kvs) at 1 3.
  generalize (@nil (pystr * V)) as acc.
  induction kvs as [|[k v] kvs IH]; intros acc Hnd; simpl.
  - rewrite app_nil_r; reflexivity.
  - rewrite set_absent.
    + replace (acc ++ (k, v) :: kvs) with ((acc ++ [(k, v)]) ++ kvs)
        by (rewrite <- app_assoc; reflexivity).
      apply IH.
      rewrite <- app_assoc; exact Hnd.
    + rewrite map_app in Hnd; simpl in Hnd.
      apply NoDup_remove_2 in Hnd.
      intros Hin; apply Hnd, in_or_app; left; exact Hin.
Qed.

Lemma values_set_forall (P : V -> Prop) d k v :
  Forall P (Dict.values d) -> P v -> Forall P (Dict.values (Dict.set d k v)).
Proof.
  intros Hd Hv; induction d as [|[k' v'] d IH]; simpl.
  - repeat constructor; exact Hv.
  - inversion Hd as [|? ? H1 H2]; subst.
    destruct (pystr_eqb k k'); simpl.
    + constructor; [exact Hv|exact H2].
    + constructor; [exact H1|apply IH; exact H2].
Qed.

Lemma get_in d k v : Dict.get d k = Some v -> In (k, v) d.
Proof.
  induction d as [|[k' v'] d IH]; simpl; [discriminate|].
  destruct (pystr_eqb k k') eqn:E.
  - apply pystr_eqb_eq in E; subst; intros [= ->]; left; reflexivity.
  - intros H; right; apply IH; exact H.
Qed.

End DictFacts.

(** ** Numbers and [clamp_score] *)

Lemma compare_number (v : pyval) (f : float) :
  is_number v = true -> exists c, compare_float v f = Ok c.
Proof.
  destruct v; simpl; intros H; try discriminate; eexists; reflexivity.
Qed.

(** On a number [clamp_score] returns, a number between 0.0 and 1.2. *)
Lemma clamp_score_number (v : pyval) :
  is_number v = true ->
  CPUQwenEmotion.clamp_score v = Ok (clamp v)
  /\ is_number (clamp v) = true
  /\ in_range (clamp v) = true.
Proof.
  intros Hn.
  destruct (compare_number v CPUQwenEmotion.max_score Hn) as [c1 H1].
  destruct (compare_number v CPUQwenEmotion.min_score Hn) as [c2 H2].
  unfold clamp, CPUQwenEmotion.clamp_score, py_min, lt_float.
  rewrite H1; cbn [rbind].
  destruct c1 as [[ | | ]|];
    try (repeat split; reflexivity).
  unfold py_max, gt_float; rewrite H2; cbn [rbind].
  destruct c2 as [[ | | ]|];
    try (repeat split; reflexivity).
  repeat split; [exact Hn|].
  unfold in_range, float_le, le_float.
  rewrite H1, H2; reflexivity.
Qed.

Lemma le_zero_number (v : pyval) :
  is_number v = true -> le_float v Float.zero = Ok (nonpositive v).
Proof.
  intros Hn; unfold nonpositive.
  destruct (compare_number v Float.zero Hn) as [c H].
  unfold le_float; rewrite H; reflexivity.
Qed.

Lemma all_le_zero_numbers (vs : list pyval) :
  Forall (fun v => is_number v = true) vs ->
  CPUQwenEmotion.all_le_zero vs = Ok (forallb nonpositive vs).
Proof.
  induction 1 as [|v vs Hv _ IH]; simpl; [reflexivity|].
  rewrite (le_zero_number v Hv); cbn [rbind].
  destruct (nonpositive v); [exact IH|reflexivity].
Qed.

(** The scores of a raw classification are numbers, also the default. *)
Lemma score_number (d : dict) (cn_key : pystr) :
  raw_classification (VDict d) = true -> is_number (score d cn_key) = true.
Proof.
  unfold score, Dict.get_default; simpl; intros H.
  destruct (Dict.get d cn_key) as [v|] eqn:E; [|reflexivity].
  apply get_in in E.
  rewrite forallb_forall in H.
  exact (H _ E).
Qed.

(** ** [convert] on a raw classification *)

Lemma keys_clamped_scores (d : dict) : Dict.keys (clamped_scores d) = labels.
Proof. reflexivity. Qed.

Lemma labels_nodup : NoDup labels.
Proof.
  unfold labels; simpl.
  repeat (constructor; [simpl; intuition discriminate|]).
  constructor.
Qed.

Lemma values_clamped_scores_numbers (d : dict) :
  raw_classification (VDict d) = true ->
  Forall (fun v => is_number v = true) (Dict.values (clamped_scores d)).
Proof.
  intros H; unfold clamped_scores, Dict.values.
  rewrite map_map; apply Forall_map, Forall_forall; intros [cn en] _; simpl.
  apply clamp_score_number, score_number, H.
Qed.

(** The comprehension of [convert] over any part of [cn_key_to_en]. *)
Lemma convert_items (d : dict) (ces : list (pystr * pystr)) :
  raw_classification (VDict d) = true ->
  Forall (fun ce => Dict.get CPUQwenEmotion.cn_key_to_en (fst ce)
                    = Some (snd ce)) ces ->
  rmap (fun cn_key =>
          en <- getitem CPUQwenEmotion.cn_key_to_en cn_key ;;
          raw <- dict_get (VDict d) cn_key (VFloat Float.zero) ;;
          score <- CPUQwenEmotion.clamp_score raw ;;
          Ok (en, score))
       (map fst ces)
  = Ok (map (fun ce : pystr * pystr => (snd ce, clamp (score d (fst ce))))
            ces).
Proof.
  intros Hd; induction 1 as [|[cn en] ces Hce _ IH]; [reflexivity|].
  cbn [fst snd] in Hce; cbn [map fst snd rmap].
  unfold getitem at 1; rewrite Hce; cbn [rbind].
  change (dict_get (VDict d) cn (VFloat Float.zero)) with (Ok (score d cn)).
  cbn [rbind].
  destruct (clamp_score_number (score d cn) (score_number d cn Hd)) as [-> _].
  cbn [rbind]; rewrite IH; reflexivity.
Qed.

(** [convert] in closed form: the clamped scores, with calm set to 1.0
    when all eight are at most 0. *)
Lemma convert_raw_classification (d : dict) :
  raw_classification (VDict d) = true ->
  CPUQwenEmotion.convert (VDict d)
  = Ok (if forallb nonpositive (Dict.values (clamped_scores d))
        then Dict.set (clamped_scores d) (py "calm") (VFloat Float.one)
        else clamped_scores d).
Proof.
  intros Hd; unfold CPUQwenEmotion.convert.
  change CPUQwenEmotion.desired_vector_order
    with (map fst CPUQwenEmotion.cn_key_to_en).
  rewrite (convert_items d (ces := CPUQwenEmotion.cn_key_to_en) Hd)
    by (repeat constructor).
  cbn [rbind]; fold (clamped_scores d).
  rewrite of_pairs_nodup
    by (change (map fst (clamped_scores d)) with labels; apply labels_nodup).
  rewrite all_le_zero_numbers by (apply values_clamped_scores_numbers, Hd).
  reflexivity.
Qed.

Lemma get_clamped_scores (d : dict) (cn en : pystr) :
  In (cn, en) CPUQwenEmotion.cn_key_to_en ->
  Dict.get (clamped_scores d) en = Some (clamp (score d cn)).
Proof.
  unfold CPUQwenEmotion.cn_key_to_en; simpl.
  intros H; repeat (destruct H as [[= <- <-]|H]; [reflexivity|]).
  contradiction.
Qed.

Lemma values_clamped_scores (d : dict) :
  Dict.values (clamped_scores d)
  = map (fun cn => clamp (score d cn)) CPUQwenEmotion.desired_vector_order.
Proof. reflexivity. Qed.

Lemma in_labels (cn en : pystr) :
  In (cn, en) CPUQwenEmotion.cn_key_to_en -> In en labels.
Proof.
  intros H.
  change labels with (map snd CPUQwenEmotion.cn_key_to_en).
  apply (in_map snd _ _ H).
Qed.

(** A vector after the rule on calm: same labels, values still in
    range. *)
Lemma forced_vector_shape (base : dict) :
  Dict.keys base = labels ->
  Forall (fun v => in_range v = true) (Dict.values base) ->
  let vec := Dict.set base (py "calm") (VFloat Float.one) in
  Dict.keys vec = labels
  /\ Forall (fun v => in_range v = true) (Dict.values vec).
Proof.
  intros Hk Hv vec; split.
  - unfold vec; rewrite keys_set_present; [exact Hk|].
    rewrite Hk; unfold labels; simpl; tauto.
  - unfold vec; apply values_set_forall; [exact Hv|reflexivity].
Qed.

Lemma values_clamped_scores_in_range (d : dict) :
  raw_classification (VDict d) = true ->
  Forall (fun v => in_range v = true) (Dict.values (clamped_scores d)).
Proof.
  intros H; unfold clamped_scores, Dict.values.
  rewrite map_map; apply Forall_map, Forall_forall; intros [cn en] _; simpl.
  apply clamp_score_number, score_number, H.
Qed.

(** Writing 0.0 under an absent label changes no score that is read. *)
Lemma score_fill (d : dict) (k k' : pystr) :
  Dict.get d k = None ->
  score (Dict.set d k (VFloat Float.zero)) k' = score d k'.
Proof.
  intros Hnone; unfold score, Dict.get_default.
  destruct (pystr_eqb k k') eqn:E.
  - apply pystr_eqb_eq in E; subst k'.
    rewrite get_set_same, Hnone; reflexivity.
  - rewrite get_set_other; [reflexivity|].
    intros ->; rewrite pystr_eqb_refl in E; discriminate.
Qed.

Lemma raw_classification_set (d : dict) (k : pystr) (v : pyval) :
  raw_classification (VDict d) = true -> is_number v = true ->
  raw_classification (VDict (Dict.set d k v)) = true.
Proof.
  simpl; intros Hd Hv.
  induction d as [|[k' v'] d IH]; simpl.
  - rewrite Hv; reflexivity.
  - simpl in Hd; apply andb_true_iff in Hd as [H1 H2].
    destruct (pystr_eqb k k'); simpl.
    + rewrite Hv, H2; reflexivity.
    + rewrite H1, IH by exact H2; reflexivity.
Qed.

Lemma clamped_scores_fill (d : dict) (k : pystr) :
  Dict.get d k = None ->
  clamped_scores (Dict.set d k (VFloat Float.zero)) = clamped_scores d.
Proof.
  intros Hnone; unfold clamped_scores.
  apply map_ext; intros [cn en]; simpl.
  rewrite score_fill by exact Hnone; reflexivity.
Qed.

(** C9.  For every raw classification, [convert] returns a vector whose
    labels are exactly happy, angry, sad, afraid, disgusted, melancholic,
    surprised, calm, in this order, and whose values all lie between 0.0
    and 1.2.  A label missing from the mapping is read as 0.0: writing 0.0
    under it changes nothing in the vector, and for every label but calm
    (whose value also obeys the rule on calm) the entry is 0.0. *)
Theorem convert_vector_shape (d : dict) :
  raw_classification (VDict d) = true ->
  exists vec,
    CPUQwenEmotion.convert (VDict d) = Ok vec
    /\ Dict.keys vec = labels
    /\ Forall (fun v => in_range v = true) (Dict.values vec)
    /\ (forall cn_key,
          Dict.get d cn_key = None ->
          CPUQwenEmotion.convert
            (VDict (Dict.set d cn_key (VFloat Float.zero))) = Ok vec)
    /\ (forall cn en,
          In (cn, en) CPUQwenEmotion.cn_key_to_en ->
          Dict.get d cn = None ->
          en <> py "calm" ->
          Dict.get vec en = Some (VFloat Float.zero)).
Proof.
  intros Hd.
  pose proof (convert_raw_classification d Hd) as Hc.
  pose proof (values_clamped_scores_in_range d Hd) as Hr.
  pose proof (keys_clamped_scores d) as Hk.
  eexists; split; [exact Hc|].
  assert (Hshape := forced_vector_shape (clamped_scores d) Hk Hr).
  cbv zeta in Hshape.
  repeat split.
  - destruct (forallb nonpositive _); [apply Hshape|exact Hk].
  - destruct (forallb nonpositive _); [apply Hshape|exact Hr].
  - intros cn_key Hnone.
    rewrite convert_raw_classification
      by (apply raw_classification_set; [exact Hd|reflexivity]).
    rewrite clamped_scores_fill by exact Hnone; reflexivity.
  - intros cn en Hin Hnone Hne.
    assert (Hbase : Dict.get (clamped_scores d) en = Some (VFloat Float.zero)).
    { rewrite (get_clamped_scores d Hin).
      unfold score, Dict.get_default; rewrite Hnone; reflexivity. }
    destruct (forallb nonpositive _); [|exact Hbase].
    rewrite get_set_other by congruence; exact Hbase.
Qed.

Lemma convert_vector_shape_witness :
  raw_classification Fixture.calm_alone = true
  /\ exists vec,
       CPUQwenEmotion.convert Fixture.calm_alone = Ok vec
       /\ Dict.keys vec = labels
       /\ Forall (fun v => in_range v = true) (Dict.values vec).
Proof.
  split; [reflexivity|].
  destruct (convert_vector_shape
              [(CPUQwenEmotion.cn_calm, VFloat Fixture.half)] eq_refl)
    as (vec & H1 & H2 & H3 & _).
  exists vec; repeat split; assumption.
Defined.

(** The entries of the vector of a raw classification. *)
Lemma convert_entries (d : dict) :
  raw_classification (VDict d) = true ->
  exists vec,
    CPUQwenEmotion.convert (VDict d) = Ok vec
    /\ Dict.get vec (py "calm")
       = Some (if forallb nonpositive
                    (map (fun cn => clamp (score d cn))
                         CPUQwenEmotion.desired_vector_order)
               then VFloat Float.one
               else clamp (score d CPUQwenEmotion.cn_calm))
    /\ (forall cn en,
          In (cn, en) CPUQwenEmotion.cn_key_to_en ->
          en <> py "calm" ->
          Dict.get vec en = Some (clamp (score d cn))).
Proof.
  intros Hd.
  eexists; split; [exact (convert_raw_classification d Hd)|].
  rewrite values_clamped_scores.
  split.
  - destruct (forallb _ _).
    + apply get_set_same.
    + reflexivity.
  - intros cn en Hin Hne.
    destruct (forallb _ _).
    + rewrite get_set_other by congruence.
      apply get_clamped_scores; exact Hin.
    + apply get_clamped_scores; exact Hin.
Qed.

(** A score that is no number makes [convert] raise: [clamp_score] is
    declared on floats. *)
Lemma convert_text_score_raises :
  CPUQwenEmotion.convert
    (VDict [(CPUQwenEmotion.cn_happy, VStr (py "high"))])
  = Raise TypeError.
Proof. reflexivity. Qed.

(** C2, as the code has it.  For every raw classification, [convert] sets
    calm to 1.0 exactly when all eight labels, calm included, have a
    clamped score of at most 0; otherwise calm keeps its own clamped
    score.  Every other label carries its clamped score in both cases. *)
Theorem convert_calm_rule (d : dict) :
  raw_classification (VDict d) = true ->
  exists vec,
    CPUQwenEmotion.convert (VDict d) = Ok vec
    /\ Dict.get vec (py "calm")
       = Some (if forallb nonpositive
                    (map (fun cn => clamp (score d cn))
                         CPUQwenEmotion.desired_vector_order)
               then VFloat Float.one
               else clamp (score d CPUQwenEmotion.cn_calm))
    /\ (forall cn en,
          In (cn, en) CPUQwenEmotion.cn_key_to_en ->
          en <> py "calm" ->
          Dict.get vec en = Some (clamp (score d cn))).
Proof. exact (convert_entries d). Qed.

Lemma convert_calm_rule_witness :
  raw_classification Fixture.calm_alone = true
  /\ exists vec,
       CPUQwenEmotion.convert Fixture.calm_alone = Ok vec
       /\ Dict.get vec (py "calm") = Some (VFloat Fixture.half).
Proof.
  split; [reflexivity|].
  destruct (convert_calm_rule
              [(CPUQwenEmotion.cn_calm, VFloat Fixture.half)] eq_refl)
    as (vec & H1 & H2 & _).
  exists vec; split; [exact H1|exact H2].
Defined.

(** C2, as the claim has it, fails: in the raw classification whose only
    score is calm's own 0.5, every label other than calm has a clamped
    score of at most 0, and calm stays at 0.5 instead of 1.0. *)
Lemma convert_calm_alone_keeps_score :
  exists vec,
    CPUQwenEmotion.convert Fixture.calm_alone = Ok vec
    /\ (forall en v,
          In (en, v) vec -> en <> py "calm" -> nonpositive v = true)
    /\ Dict.get vec (py "calm") = Some (VFloat Fixture.half)
    /\ Dict.get vec (py "calm") <> Some (VFloat Float.one).
Proof.
  eexists; split; [vm_compute; reflexivity|].
  split; [|split; [reflexivity|discriminate]].
  intros en v Hin Hne; simpl in Hin.
  repeat (destruct Hin as [[= <- <-]|Hin]; [try reflexivity|]).
  - exfalso; apply Hne; reflexivity.
  - contradiction.
Qed.

(** ** Melancholic words *)

Lemma startswith_prefix (p s : pystr) :
  Str.startswith s p = true <-> exists r, s = p ++ r.
Proof.
  revert s; induction p as [|a p IH]; intros s.
  - split; [intros _; exists s; reflexivity|].
    intros _; destruct s; reflexivity.
  - destruct s as [|b s]; simpl.
    + split; [discriminate|intros [r Hr]; discriminate].
    + rewrite andb_true_iff, N.eqb_eq, IH; split.
      * intros [-> [r ->]]; exists r; reflexivity.
      * intros [r [= -> ->]]; split; [reflexivity|exists r; reflexivity].
Qed.

Lemma contains_infix (p s : pystr) :
  Str.contains s p = true <-> exists a b, s = a ++ p ++ b.
Proof.
  induction s as [|c s IH].
  - cbn [Str.contains]; rewrite orb_false_r, startswith_prefix; split.
    + intros [r Hr]; exists [], r; exact Hr.
    + intros (a & b & H).
      destruct a; [exists b; exact H|discriminate].
  - cbn [Str.contains]; rewrite orb_true_iff, startswith_prefix, IH; split.
    + intros [[r Hr]|(a & b & ->)].
      * exists [], r; exact Hr.
      * exists (c :: a), b; reflexivity.
    + intros (a & b & H); destruct a as [|x a].
      * left; exists b; exact H.
      * right; injection H as -> ->; exists a, b; reflexivity.
Qed.

(** The test of [inference] is containment up to case. *)
Lemma has_melancholic_word_iff (text_input : pystr) :
  CPUQwenEmotion.has_melancholic_word text_input = true
  <-> mentions_melancholy text_input.
Proof.
  unfold CPUQwenEmotion.has_melancholic_word, mentions_melancholy.
  rewrite existsb_exists; split.
  - intros (word & Hin & Hc); exists word; split; [exact Hin|].
    apply contains_infix in Hc as (a & b & Hab).
    unfold Str.lower in Hab.
    apply map_eq_app in Hab as (a' & r & -> & <- & Hr).
    apply map_eq_app in Hr as (m & b' & -> & <- & <-).
    exists a', m, b'; split; reflexivity.
  - intros (word & Hin & a & m & b & -> & <-); exists (Str.lower m).
    split; [exact Hin|].
    apply contains_infix; exists (Str.lower a), (Str.lower b).
    unfold Str.lower; rewrite !map_app; reflexivity.
Qed.

(** What the swap does to a dict. *)
Lemma swap_dict (d : dict) :
  CPUQwenEmotion.swap_sad_melancholic (VDict d)
  = Ok (VDict (Dict.set
                 (Dict.set d CPUQwenEmotion.cn_sad
                    (score d CPUQwenEmotion.cn_melancholic))
                 CPUQwenEmotion.cn_melancholic
                 (score d CPUQwenEmotion.cn_sad))).
Proof. reflexivity. Qed.

Lemma sad_is_not_melancholic :
  CPUQwenEmotion.cn_sad <> CPUQwenEmotion.cn_melancholic.
Proof. discriminate. Qed.

Lemma swapped_entries (d : dict) :
  let d' := Dict.set
              (Dict.set d CPUQwenEmotion.cn_sad
                 (score d CPUQwenEmotion.cn_melancholic))
              CPUQwenEmotion.cn_melancholic
              (score d CPUQwenEmotion.cn_sad) in
  Dict.get d' CPUQwenEmotion.cn_sad
  = Some (score d CPUQwenEmotion.cn_melancholic)
  /\ Dict.get d' CPUQwenEmotion.cn_melancholic
     = Some (score d CPUQwenEmotion.cn_sad)
  /\ (forall k,
        k <> CPUQwenEmotion.cn_sad -> k <> CPUQwenEmotion.cn_melancholic ->
        Dict.get d' k = Dict.get d k).
Proof.
  intros d'; unfold d'; repeat split.
  - rewrite get_set_other by (intros H; symmetry in H; revert H;
                              apply sad_is_not_melancholic).
    apply get_set_same.
  - apply get_set_same.
  - intros k H1 H2.
    rewrite !get_set_other by congruence; reflexivity.
Qed.

Lemma disambiguate_mentions (text_input : pystr) (d : dict) :
  mentions_melancholy text_input ->
  CPUQwenEmotion.disambiguate text_input (VDict d)
  = Ok (VDict (Dict.set
                 (Dict.set d CPUQwenEmotion.cn_sad
                    (score d CPUQwenEmotion.cn_melancholic))
                 CPUQwenEmotion.cn_melancholic
                 (score d CPUQwenEmotion.cn_sad))).
Proof.
  intros H; apply has_melancholic_word_iff in H.
  unfold CPUQwenEmotion.disambiguate; rewrite H; apply swap_dict.
Qed.

Lemma disambiguate_silent (text_input : pystr) (parsed : pyval) :
  ~ mentions_melancholy text_input ->
  CPUQwenEmotion.disambiguate text_input parsed = Ok parsed.
Proof.
  intros H; unfold CPUQwenEmotion.disambiguate.
  destruct (CPUQwenEmotion.has_melancholic_word text_input) eqn:E;
    [|reflexivity].
  apply has_melancholic_word_iff in E; contradiction.
Qed.

(** C10.  When the text contains a melancholic word, the swap leaves both
    keys in the raw mapping, whatever was there before: sad (cn) holds the
    former score of melancholic (cn), melancholic (cn) the former score of
    sad (cn), and 0.0 stands for a score that was absent.  A mapping with
    sad (cn) alone ends as sad (cn) = 0.0, melancholic (cn) = the old
    score, in this order. *)
Theorem swap_total_over_missing_keys (text_input : pystr) (d : dict) :
  mentions_melancholy text_input ->
  exists d',
    CPUQwenEmotion.disambiguate text_input (VDict d) = Ok (VDict d')
    /\ Dict.get d' CPUQwenEmotion.cn_sad
       = Some (Dict.get_default d CPUQwenEmotion.cn_melancholic
                 (VFloat Float.zero))
    /\ Dict.get d' CPUQwenEmotion.cn_melancholic
       = Some (Dict.get_default d CPUQwenEmotion.cn_sad (VFloat Float.zero))
    /\ (forall x,
          d = [(CPUQwenEmotion.cn_sad, x)] ->
          d' = [(CPUQwenEmotion.cn_sad, VFloat Float.zero);
                (CPUQwenEmotion.cn_melancholic, x)]).
Proof.
  intros H; eexists; split; [apply disambiguate_mentions; exact H|].
  destruct (swapped_entries d) as (H1 & H2 & _).
  repeat split; [exact H1|exact H2|].
  intros x ->; reflexivity.
Qed.

Lemma swap_total_over_missing_keys_witness :
  mentions_melancholy (py "I feel so depressed today")
  /\ exists d',
       CPUQwenEmotion.disambiguate (py "I feel so depressed today")
         (VDict [(CPUQwenEmotion.cn_sad, VFloat Fixture.f0_9)])
       = Ok (VDict d')
       /\ d' = [(CPUQwenEmotion.cn_sad, VFloat Float.zero);
                (CPUQwenEmotion.cn_melancholic, VFloat Fixture.f0_9)].
Proof.
  assert (Hm : mentions_melancholy (py "I feel so depressed today")).
  { exists (py "depressed"); split; [simpl; tauto|].
    exists (py "I feel so "), (py "depressed"), (py " today").
    split; reflexivity. }
  split; [exact Hm|].
  destruct (swap_total_over_missing_keys
              [(CPUQwenEmotion.cn_sad, VFloat Fixture.f0_9)] Hm)
    as (d' & H1 & _ & _ & H4).
  exists d'; split; [exact H1|apply H4; reflexivity].
Defined.

(** C7.  Let the decoded content parse to the raw mapping [d].  When the
    text contains a melancholic word, in any case of letters, the vector
    is the conversion of the mapping in which the scores of sad (cn) and
    melancholic (cn) have changed places, every other key as it was; with
    sad = 0.9 and melancholic = 0.2 in a raw classification the vector
    has melancholic = 0.9 and sad = 0.2.  When the text contains none, the
    vector is the conversion of [d] itself. *)
Theorem swap_on_melancholic_word (text_input content : pystr) (d : dict) :
  CPUQwenEmotion.parse_content content = Ok (VDict d) ->
  (mentions_melancholy text_input ->
   (exists d',
      CPUQwenEmotion.classify text_input content
      = CPUQwenEmotion.convert (VDict d')
      /\ Dict.get d' CPUQwenEmotion.cn_sad
         = Some (score d CPUQwenEmotion.cn_melancholic)
      /\ Dict.get d' CPUQwenEmotion.cn_melancholic
         = Some (score d CPUQwenEmotion.cn_sad)
      /\ (forall k,
            k <> CPUQwenEmotion.cn_sad ->
            k <> CPUQwenEmotion.cn_melancholic ->
            Dict.get d' k = Dict.get d k))
   /\ (raw_classification (VDict d) = true ->
       Dict.get d CPUQwenEmotion.cn_sad = Some (VFloat Fixture.f0_9) ->
       Dict.get d CPUQwenEmotion.cn_melancholic
       = Some (VFloat Fixture.f0_2) ->
       exists vec,
         CPUQwenEmotion.classify text_input content = Ok vec
         /\ Dict.get vec (py "melancholic") = Some (VFloat Fixture.f0_9)
         /\ Dict.get vec (py "sad") = Some (VFloat Fixture.f0_2)))
  /\ (~ mentions_melancholy text_input ->
      CPUQwenEmotion.classify text_input content
      = CPUQwenEmotion.convert (VDict d)).
Proof.
  intros Hp; split.
  - intros Hm.
    assert (Hc : CPUQwenEmotion.classify text_input content
                 = CPUQwenEmotion.convert
                     (VDict (Dict.set
                               (Dict.set d CPUQwenEmotion.cn_sad
                                  (score d CPUQwenEmotion.cn_melancholic))
                               CPUQwenEmotion.cn_melancholic
                               (score d CPUQwenEmotion.cn_sad)))).
    { unfold CPUQwenEmotion.classify; rewrite Hp; cbn [rbind].
      rewrite (disambiguate_mentions d Hm); reflexivity. }
    destruct (swapped_entries d) as (H1 & H2 & H3).
    split.
    + eexists; split; [exact Hc|]; repeat split; assumption.
    + intros Hd Hs Hmel.
      assert (Hd' : raw_classification
                      (VDict (Dict.set
                                (Dict.set d CPUQwenEmotion.cn_sad
                                   (score d CPUQwenEmotion.cn_melancholic))
                                CPUQwenEmotion.cn_melancholic
                                (score d CPUQwenEmotion.cn_sad))) = true).
      { apply raw_classification_set; [|apply score_number; exact Hd].
        apply raw_classification_set; [exact Hd|apply score_number; exact Hd]. }
      destruct (convert_entries _ Hd') as (vec & Hv & _ & Hrest).
      exists vec; split; [rewrite Hc; exact Hv|].
      split.
      * rewrite (Hrest CPUQwenEmotion.cn_melancholic (py "melancholic"))
          by (simpl; tauto || discriminate).
        unfold score at 1, Dict.get_default; rewrite H2.
        unfold score, Dict.get_default; rewrite Hs; reflexivity.
      * rewrite (Hrest CPUQwenEmotion.cn_sad (py "sad"))
          by (simpl; tauto || discriminate).
        unfold score at 1, Dict.get_default; rewrite H1.
        unfold score, Dict.get_default; rewrite Hmel; reflexivity.
  - intros Hm.
    unfold CPUQwenEmotion.classify; rewrite Hp; cbn [rbind].
    rewrite (disambiguate_silent _ Hm); reflexivity.
Qed.

Lemma swap_on_melancholic_word_witness :
  let d := [(CPUQwenEmotion.cn_sad, VFloat Fixture.f0_9);
            (CPUQwenEmotion.cn_melancholic, VFloat Fixture.f0_2)] in
  CPUQwenEmotion.parse_content Fixture.sad_over_melancholic = Ok (VDict d)
  /\ mentions_melancholy (py "I feel so Depressed today")
  /\ (exists vec,
        CPUQwenEmotion.classify (py "I feel so Depressed today")
          Fixture.sad_over_melancholic = Ok vec
        /\ Dict.get vec (py "melancholic") = Some (VFloat Fixture.f0_9)
        /\ Dict.get vec (py "sad") = Some (VFloat Fixture.f0_2))
  /\ ~ mentions_melancholy (py "What a day")
  /\ CPUQwenEmotion.classify (py "What a day") Fixture.sad_over_melancholic
     = CPUQwenEmotion.convert (VDict d).
Proof.
  intros d.
  assert (Hp : CPUQwenEmotion.parse_content Fixture.sad_over_melancholic
               = Ok (VDict d)) by (vm_compute; reflexivity).
  assert (Hm : mentions_melancholy (py "I feel so Depressed today")).
  { exists (py "depressed"); split; [simpl; tauto|].
    exists (py "I feel so "), (py "Depressed"), (py " today").
    split; reflexivity. }
  assert (Hn : ~ mentions_melancholy (py "What a day")).
  { intros H; apply has_melancholic_word_iff in H.
    vm_compute in H; discriminate. }
  split; [exact Hp|]; split; [exact Hm|].
  destruct (@swap_on_melancholic_word (py "I feel so Depressed today")
              Fixture.sad_over_melancholic d Hp) as [Hyes _].
  destruct (@swap_on_melancholic_word (py "What a day")
              Fixture.sad_over_melancholic d Hp) as [_ Hno].
  split; [|split; [exact Hn|exact (Hno Hn)]].
  destruct (Hyes Hm) as [_ Hex].
  apply Hex; reflexivity.
Defined.

(** ** The bounds of [Json.scan_once] are never reached *)

Section JsonBounds.

Local Open Scope nat_scope.










Section Containers.

Variable scan : pystr -> Json.pres pyval.

Hypothesis scan_shorter :
  forall s v r, scan s = Json.POk v r -> List.length r < List.length s.



(** [scan] goes deep enough for every text shorter than [bound]. *)
Variable bound : nat.

Hypothesis scan_not_deep :
  forall s, List.length s < bound -> scan s <> Json.PDeep.



End Containers.



End JsonBounds.


(** ** The tolerant scan *)




(** C3, at the failing input.  The decoded text happy (cn), colon, blank,
    0.5, full stop is not JSON; the scan matches the label with the number
    text 0.5 followed by the full stop, [float] rejects that text, and
    the fallback raises [ValueError] instead of giving a mapping, for
    every input text. *)
Theorem scan_raises_on_trailing_point :
  Json.loads Fixture.happy_sentence = Raise JSONDecodeError
  /\ Re.finditer Fixture.happy_sentence
     = [(CPUQwenEmotion.cn_happy, py "0.5.")]
  /\ float_of_str (py "0.5.") = None
  /\ CPUQwenEmotion.parse_content Fixture.happy_sentence
     = Raise (ValueError "could not convert string to float")
  /\ (forall text_input,
        CPUQwenEmotion.classify text_input Fixture.happy_sentence
        = Raise (ValueError "could not convert string to float")).
Proof.
  repeat split; try (vm_compute; reflexivity).
Qed.

(** ** [_parse_vector] *)

Lemma rmap_float_raises (toks : list pystr) :
  Exists (fun tok => float_of_str tok = None) toks ->
  rmap (fun tok => py_float (VStr tok)) toks
  = Raise (ValueError "could not convert string to float").
Proof.
  induction 1 as [tok toks H|tok toks _ IH]; cbn [rmap].
  - unfold py_float at 1; rewrite H; reflexivity.
  - unfold py_float at 1.
    destruct (float_of_str tok); cbn [rbind]; [|reflexivity].
    rewrite IH; reflexivity.
Qed.

(** What [_parse_vector] does with a string that is not blank: the
    values are read from the stripped string. *)
Lemma parse_vector_stripped (raw : pystr) :
  Str.strip raw <> [] ->
  _parse_vector (Some raw)
  = (values <- read_values (Str.strip raw) ;;
     if negb (truthy values) then Ok None
     else items <- py_iter values ;;
          floats <- rmap py_float items ;;
          Ok (Some floats)).
Proof.
  intros H; unfold _parse_vector.
  destruct raw as [|c raw]; [exfalso; apply H; reflexivity|].
  cbn [truthy negb].
  destruct (Str.strip (c :: raw)) eqn:E; [contradiction|reflexivity].
Qed.


(** A comma separated string with a token that is not blank and not a
    number is refused with the message of [_parse_vector]. *)
Lemma parse_vector_bad_token (raw : pystr) :
  Str.strip raw <> [] ->
  Str.startswith (Str.strip raw) (py "[") = false ->
  Exists (fun tok => Str.strip tok <> [] /\ float_of_str tok = None)
         (Str.split 44%N (Str.strip raw)) ->
  _parse_vector (Some raw) = Raise (ValueError parse_vector_message).
Proof.
  intros Hne Hs Hex; rewrite parse_vector_stripped by exact Hne.
  unfold read_values, comma_separated; rewrite Hs.
  rewrite rmap_float_raises; [reflexivity|].
  apply Exists_exists in Hex as (tok & Hin & Hnb & Hf).
  apply Exists_exists; exists tok; split; [|exact Hf].
  apply filter_In; split; [exact Hin|].
  simpl; destruct (Str.strip tok); [contradiction|reflexivity].
Qed.

(** C6, at the failing input.  The string of a JSON array that holds null
    decodes, so the [except] clause is not entered; the conversion to
    floats after it raises [TypeError], which is no [ValueError]. *)
Theorem parse_vector_null_raises_type_error :
  Json.loads (py "[null]") = Ok (VList [VNone])
  /\ _parse_vector (Some (py "[null]")) = Raise TypeError
  /\ is_ValueError TypeError = false.
Proof. repeat split; vm_compute; reflexivity. Qed.

(** ** [predict] *)

Section PredictFacts.

Variable ext : Type.
Variable mkdtemp : ext -> result pystr * ext.
Variable tts_infer : infer_args -> ext -> result pystr * ext.

(** X22.  An error of [_parse_vector] leaves [predict] as it is raised,
    before anything else is done: no directory is made, the engine is not
    called, nothing is printed. *)
Lemma predict_propagates (req : request) (e : exn) (w : world ext) :
  _parse_vector (emotion_vector req) = Raise e ->
  predict mkdtemp tts_infer req w = (Raise e, w).
Proof.
  intros H; unfold predict, bind, lift; rewrite H; reflexivity.
Qed.

(** With the vector read and the directory made, [predict] is the call of
    the engine on [infer_kwargs]. *)
Lemma predict_hands_over (req : request) (values : option (list float))
    (w : world ext) (tmp_dir : pystr) (x : ext) :
  _parse_vector (emotion_vector req) = Ok values ->
  mkdtemp (outside w) = (Ok tmp_dir, x) ->
  predict mkdtemp tts_infer req w
  = call (tts_infer (infer_kwargs req values (tmp_dir ++ py "/output.wav")))
         (World x (stdout w)).
Proof.
  intros Hv Hd; unfold predict, bind, lift; rewrite Hv.
  unfold call at 1; rewrite Hd; reflexivity.
Qed.

(** The flag handed over depends on the emotion text alone. *)
Lemma use_emo_text_ignores_vector (req : request)
    (values : option (list float)) (out : pystr) :
  use_emo_text (infer_kwargs req values out) = text_given (emotion_text req).
Proof. reflexivity. Qed.

End PredictFacts.

(** C1, at the failing input.  For a request with the explicit vector
    [0.1,0.2,0,0,0,0,0,0] and the emotion text happy, [predict] hands the
    vector over and sets [use_emo_text], the flag that asks the engine for
    text classification. *)
Theorem predict_vector_and_text_sets_flag :
  predict Fixture.mkdtemp Fixture.tts_infer Fixture.vector_and_text
    (World [] [])
  = (Ok (py "/tmp/tmpdir/output.wav"),
     World
       [ {| spk_audio_prompt := py "speaker.wav";
            arg_text := py "Hello there.";
            output_path := py "/tmp/tmpdir/output.wav";
            emo_audio_prompt := None;
            emo_alpha := Float.one;
            emo_vector :=
              Some [Fixture.f0_1; Fixture.f0_2; Float.zero; Float.zero;
                    Float.zero; Float.zero; Float.zero; Float.zero];
            use_emo_text := true;
            emo_text := Some (py "happy");
            use_random := false;
            arg_settings := Fixture.default_controls |} ]
       []).
Proof. vm_compute; reflexivity. Qed.

(** ** [SafeQwenEmotion] *)

Section WrapperFacts.

Variable ext : Type.
Variable original_cls : pyclass ext.

Lemma neutral_entries :
  Dict.get SafeQwenEmotion.neutral (py "calm") = Some (VFloat Float.one)
  /\ forall label,
       label <> py "calm" ->
       Dict.get_default SafeQwenEmotion.neutral label (VFloat Float.zero)
       = VFloat Float.zero.
Proof.
  split; [reflexivity|].
  intros label Hne; unfold Dict.get_default, SafeQwenEmotion.neutral.
  cbn [Dict.get]; rewrite pystr_eqb_neq by exact Hne; reflexivity.
Qed.

(** Without an inner instance, [inference] answers at once and touches
    nothing. *)
Lemma degraded_inference (s : SafeQwenEmotion.self original_cls)
    (text_input : pystr) (w : world ext) :
  SafeQwenEmotion._inner s = None ->
  SafeQwenEmotion.inference s text_input w = (Ok SafeQwenEmotion.neutral, w).
Proof.
  intros H; unfold SafeQwenEmotion.inference; rewrite H; reflexivity.
Qed.

(** With an inner instance, [inference] is the inner call, an exception
    replaced by a line of output and the neutral answer. *)
Lemma ready_inference (s : SafeQwenEmotion.self original_cls)
    (inner : instance original_cls) (text_input : pystr) (w : world ext) :
  SafeQwenEmotion._inner s = Some inner ->
  SafeQwenEmotion.inference s text_input w
  = match inference original_cls inner text_input w with
    | (Ok d, w') => (Ok d, w')
    | (Raise exc, w') =>
        (Ok SafeQwenEmotion.neutral,
         World (outside w') (stdout w' ++ [InferenceFailed exc]))
    end.
Proof.
  intros H; unfold SafeQwenEmotion.inference; rewrite H.
  unfold try_except.
  destruct (inference original_cls inner text_input w) as [[d|exc] w'];
    reflexivity.
Qed.

End WrapperFacts.

(** C4.  If the constructor of the inner class raises, the constructor of
    the wrapper returns: it prints one line, keeps the exception and no
    inner instance.  On that wrapper every [inference], for every text and
    in every world, returns the dict with calm = 1.0 alone (every other
    label reads as 0.0) and leaves the world as it was: nothing of the
    inner class runs, nothing is raised. *)
Theorem degraded_wrapper_is_neutral (ext : Type) (original_cls : pyclass ext)
    (model_dir : pystr) (w w' : world ext) (exc : exn) :
  init original_cls model_dir w = (Raise exc, w') ->
  exists s,
    SafeQwenEmotion.__init__ original_cls model_dir w
    = (Ok s, World (outside w') (stdout w' ++ [Unavailable exc]))
    /\ SafeQwenEmotion._inner s = None
    /\ SafeQwenEmotion._inner_exc s = Some exc
    /\ (forall text_input w0,
          SafeQwenEmotion.inference s text_input w0
          = (Ok SafeQwenEmotion.neutral, w0))
    /\ Dict.get SafeQwenEmotion.neutral (py "calm") = Some (VFloat Float.one)
    /\ (forall label,
          label <> py "calm" ->
          Dict.get_default SafeQwenEmotion.neutral label (VFloat Float.zero)
          = VFloat Float.zero).
Proof.
  intros H.
  exists (SafeQwenEmotion.Self original_cls None (Some exc)).
  split.
  - unfold SafeQwenEmotion.__init__, try_except, bind; rewrite H.
    reflexivity.
  - repeat split; try reflexivity.
    apply neutral_entries.
Qed.

Lemma degraded_wrapper_is_neutral_witness :
  init Fixture.broken_cls (py "checkpoints") (World tt [])
  = (Raise (OtherException "OSError"), World tt [])
  /\ exists s,
       SafeQwenEmotion.__init__ Fixture.broken_cls (py "checkpoints")
         (World tt [])
       = (Ok s, World tt [Unavailable (OtherException "OSError")])
       /\ forall text_input w0,
            SafeQwenEmotion.inference s text_input w0
            = (Ok SafeQwenEmotion.neutral, w0).
Proof.
  split; [reflexivity|].
  destruct (@degraded_wrapper_is_neutral unit Fixture.broken_cls
              (py "checkpoints") (World tt []) (World tt [])
              (OtherException "OSError") eq_refl)
    as (s & H1 & _ & _ & H4 & _).
  exists s; split; [exact H1|exact H4].
Defined.

(** C5.  On a wrapper with an inner instance, a call in which the inner
    [inference] raises returns the neutral dict after one line of output;
    the wrapper is the same object after it, and a next call in which the
    inner [inference] returns gives that result.  Both calls in a row:
    no exception, the neutral dict, then the result of the inner class. *)
Theorem ready_wrapper_absorbs_failure (ext : Type) (original_cls : pyclass ext)
    (s : SafeQwenEmotion.self original_cls) (inner : instance original_cls)
    (text1 text2 : pystr) (w w1 w2 : world ext) (exc : exn) (d : dict) :
  SafeQwenEmotion._inner s = Some inner ->
  inference original_cls inner text1 w = (Raise exc, w1) ->
  inference original_cls inner text2
    (World (outside w1) (stdout w1 ++ [InferenceFailed exc]))
  = (Ok d, w2) ->
  SafeQwenEmotion.inference s text1 w
  = (Ok SafeQwenEmotion.neutral,
     World (outside w1) (stdout w1 ++ [InferenceFailed exc]))
  /\ (r1 <~ SafeQwenEmotion.inference s text1 ;;
      r2 <~ SafeQwenEmotion.inference s text2 ;;
      ret (r1, r2)) w
     = (Ok (SafeQwenEmotion.neutral, d), w2).
Proof.
  intros Hs H1 H2.
  assert (Hfirst : SafeQwenEmotion.inference s text1 w
                   = (Ok SafeQwenEmotion.neutral,
                      World (outside w1)
                        (stdout w1 ++ [InferenceFailed exc]))).
  { rewrite (ready_inference s text1 w Hs), H1; reflexivity. }
  split; [exact Hfirst|].
  unfold bind at 1; rewrite Hfirst.
  unfold bind at 1; rewrite (ready_inference s text2 _ Hs), H2.
  reflexivity.
Qed.

Lemma ready_wrapper_absorbs_failure_witness :
  let s := SafeQwenEmotion.Self Fixture.moody_cls (Some tt) None in
  SafeQwenEmotion.__init__ Fixture.moody_cls (py "checkpoints") (World tt [])
  = (Ok s, World tt [])
  /\ (r1 <~ SafeQwenEmotion.inference s [] ;;
      r2 <~ SafeQwenEmotion.inference s (py "I am glad") ;;
      ret (r1, r2)) (World tt [])
     = (Ok (SafeQwenEmotion.neutral, [(py "happy", VFloat Fixture.half)]),
        World tt [InferenceFailed (OtherException "RuntimeError")]).
Proof.
  intros s; split; [reflexivity|].
  apply (@ready_wrapper_absorbs_failure unit Fixture.moody_cls s tt
           [] (py "I am glad") (World tt []) (World tt [])
           (World tt [InferenceFailed (OtherException "RuntimeError")])
           (OtherException "RuntimeError")
           [(py "happy", VFloat Fixture.half)]);
    reflexivity.
Defined.

(** C8.  On a class that carries the marker, [_wrap_qwen_with_fallback]
    leaves the attribute as it is, the same class and no new layer; so
    running it twice gives the very class that running it once gives, for
    every attribute, and that class carries the marker. *)
Theorem wrap_is_idempotent (ext : Type) (marked : pyclass ext) :
  _is_safe_wrapper marked = true ->
  _wrap_qwen_with_fallback (Some marked) = Some marked
  /\ (forall QwenEmotion : attribute ext,
        _wrap_qwen_with_fallback (_wrap_qwen_with_fallback QwenEmotion)
        = _wrap_qwen_with_fallback QwenEmotion)
  /\ (forall (QwenEmotion : attribute ext) wrapped,
        _wrap_qwen_with_fallback QwenEmotion = Some wrapped ->
        _is_safe_wrapper wrapped = true).
Proof.
  intros Hm; repeat split.
  - unfold _wrap_qwen_with_fallback; rewrite Hm; reflexivity.
  - intros [c|]; [|reflexivity].
    unfold _wrap_qwen_with_fallback.
    destruct (_is_safe_wrapper c) eqn:E; [rewrite E|]; reflexivity.
  - intros [c|] wrapped; [|discriminate].
    unfold _wrap_qwen_with_fallback.
    destruct (_is_safe_wrapper c) eqn:E; intros [= <-]; [exact E|reflexivity].
Qed.

Lemma wrap_is_idempotent_witness :
  let once := SafeQwenEmotion.cls Fixture.moody_cls in
  _is_safe_wrapper once = true
  /\ _wrap_qwen_with_fallback (Some Fixture.moody_cls) = Some once
  /\ _wrap_qwen_with_fallback (Some once) = Some once.
Proof.
  intros once; split; [reflexivity|]; split; [reflexivity|].
  apply (@wrap_is_idempotent unit once eq_refl).
Defined.

(** * Further properties *)

(** ** [clamp_score] *)

Lemma clamp_score_compare (v : pyval) (c1 c2 : option comparison) :
  compare_float v CPUQwenEmotion.max_score = Ok c1 ->
  compare_float v CPUQwenEmotion.min_score = Ok c2 ->
  CPUQwenEmotion.clamp_score v
  = Ok (match c1, c2 with
        | Some Lt, Some Gt => v
        | Some Lt, _ => VFloat CPUQwenEmotion.min_score
        | _, _ => VFloat CPUQwenEmotion.max_score
        end).
Proof.
  intros H1 H2.
  unfold CPUQwenEmotion.clamp_score, py_min, lt_float.
  rewrite H1; cbn [rbind].
  destruct c1 as [[ | | ]|]; try (destruct c2 as [[ | | ]|]; reflexivity).
  unfold py_max, gt_float; rewrite H2; cbn [rbind].
  destruct c2 as [[ | | ]|]; reflexivity.
Qed.

Lemma clamp_score_fixed (v : pyval) :
  is_number v = true ->
  CPUQwenEmotion.clamp_score (clamp v) = Ok (clamp v).
Proof.
  intros Hn.
  destruct (compare_number v CPUQwenEmotion.max_score Hn) as [c1 H1].
  destruct (compare_number v CPUQwenEmotion.min_score Hn) as [c2 H2].
  unfold clamp; rewrite (clamp_score_compare v H1 H2).
  destruct c1 as [[ | | ]|]; try (destruct c2 as [[ | | ]|]; reflexivity).
  destruct c2 as [[ | | ]|]; try reflexivity.
  rewrite (clamp_score_compare v H1 H2); reflexivity.
Qed.

(** X1.  [clamp_score] raises [TypeError] on a value that is no number
    and on nothing else; on a number it returns a number between 0.0 and
    1.2 that clamping again leaves as it is. *)
Theorem clamp_score_outcome (v : pyval) :
  if is_number v
  then exists x,
         CPUQwenEmotion.clamp_score v = Ok x
         /\ is_number x = true
         /\ in_range x = true
         /\ CPUQwenEmotion.clamp_score x = Ok x
  else CPUQwenEmotion.clamp_score v = Raise TypeError.
Proof.
  destruct (is_number v) eqn:Hn.
  - exists (clamp v).
    destruct (clamp_score_number v Hn) as (H1 & H2 & H3).
    repeat split; try assumption.
    apply clamp_score_fixed; exact Hn.
  - destruct v; try discriminate; reflexivity.
Qed.

(** X2.  The three cases of [clamp_score] on a number: a score below 1.2
    and above 0.0 is returned as it is; a score below 1.2 and not above
    0.0 gives 0.0; any other score, a NaN too, gives 1.2. *)
Theorem clamp_score_cases (v : pyval) (c1 c2 : option comparison) :
  compare_float v CPUQwenEmotion.max_score = Ok c1 ->
  compare_float v CPUQwenEmotion.min_score = Ok c2 ->
  CPUQwenEmotion.clamp_score v
  = Ok (match c1, c2 with
        | Some Lt, Some Gt => v
        | Some Lt, _ => VFloat Float.zero
        | _, _ => VFloat Float.f1_2
        end).
Proof. exact (clamp_score_compare v (c1 := c1) (c2 := c2)). Qed.

Lemma clamp_score_cases_witness :
  CPUQwenEmotion.clamp_score (VFloat S754_nan) = Ok (VFloat Float.f1_2)
  /\ CPUQwenEmotion.clamp_score (VInt 1) = Ok (VInt 1)
  /\ CPUQwenEmotion.clamp_score (VFloat (S754_zero true))
     = Ok (VFloat Float.zero).
Proof.
  split; [|split].
  - exact (@clamp_score_cases (VFloat S754_nan) None None eq_refl eq_refl).
  - exact (@clamp_score_cases (VInt 1) (Some Lt) (Some Gt) eq_refl eq_refl).
  - exact (@clamp_score_cases (VFloat (S754_zero true)) (Some Lt) (Some Eq)
             eq_refl eq_refl).
Defined.

(** ** [convert] on any content *)

Lemma clamp_score_non_number (v : pyval) :
  is_number v = false -> CPUQwenEmotion.clamp_score v = Raise TypeError.
Proof. destruct v; try discriminate; reflexivity. Qed.

Lemma convert_items_outcome (d : dict) (ces : list (pystr * pystr)) :
  Forall (fun ce => Dict.get CPUQwenEmotion.cn_key_to_en (fst ce)
                    = Some (snd ce)) ces ->
  rmap (fun cn_key =>
          en <- getitem CPUQwenEmotion.cn_key_to_en cn_key ;;
          raw <- dict_get (VDict d) cn_key (VFloat Float.zero) ;;
          score <- CPUQwenEmotion.clamp_score raw ;;
          Ok (en, score))
       (map fst ces)
  = if forallb (fun cn_key => is_number (score d cn_key)) (map fst ces)
    then Ok (map (fun ce : pystr * pystr =>
                    (snd ce, clamp (score d (fst ce)))) ces)
    else Raise TypeError.
Proof.
  induction 1 as [|[cn en] ces Hce _ IH]; [reflexivity|].
  cbn [fst snd] in Hce; cbn [map fst snd rmap forallb].
  unfold getitem at 1; rewrite Hce; cbn [rbind].
  change (dict_get (VDict d) cn (VFloat Float.zero)) with (Ok (score d cn)).
  cbn [rbind].
  destruct (is_number (score d cn)) eqn:Hn; cbn [andb].
  - destruct (clamp_score_number (score d cn) Hn) as [-> _].
    cbn [rbind]; rewrite IH.
    destruct (forallb _ _); reflexivity.
  - rewrite (clamp_score_non_number _ Hn); reflexivity.
Qed.

(** [convert] on a dict, in closed form. *)
Lemma convert_dict (d : dict) :
  CPUQwenEmotion.convert (VDict d)
  = if numbers_read d
    then Ok (if forallb nonpositive (Dict.values (clamped_scores d))
             then Dict.set (clamped_scores d) (py "calm") (VFloat Float.one)
             else clamped_scores d)
    else Raise TypeError.
Proof.
  unfold CPUQwenEmotion.convert, numbers_read.
  change CPUQwenEmotion.desired_vector_order
    with (map fst CPUQwenEmotion.cn_key_to_en).
  rewrite (convert_items_outcome d (ces := CPUQwenEmotion.cn_key_to_en))
    by (repeat constructor).
  destruct (forallb _ (map fst CPUQwenEmotion.cn_key_to_en)) eqn:Hn;
    [|reflexivity].
  cbn [rbind]; fold (clamped_scores d).
  rewrite of_pairs_nodup
    by (change (map fst (clamped_scores d)) with labels; apply labels_nodup).
  rewrite all_le_zero_numbers; [reflexivity|].
  rewrite values_clamped_scores.
  apply Forall_map, Forall_forall; intros cn Hin.
  rewrite forallb_forall in Hn.
  apply clamp_score_number, Hn, Hin.
Qed.

Lemma convert_not_dict (content : pyval) :
  (forall d, content <> VDict d) ->
  CPUQwenEmotion.convert content = Raise AttributeError.
Proof.
  intros H; destruct content; try reflexivity.
  exfalso; eapply H; reflexivity.
Qed.

(** X3.  What [convert] does with any content: [AttributeError] on what
    is no dict; [TypeError] on a dict in which one of the eight scores
    read is no number; a vector with the eight labels otherwise, whatever
    other keys and values the dict holds. *)
Theorem convert_outcome (content : pyval) :
  match content with
  | VDict d =>
      if numbers_read d
      then exists vec,
             CPUQwenEmotion.convert content = Ok vec
             /\ Dict.keys vec = labels
      else CPUQwenEmotion.convert content = Raise TypeError
  | _ => CPUQwenEmotion.convert content = Raise AttributeError
  end.
Proof.
  destruct content; try reflexivity.
  rewrite convert_dict.
  destruct (numbers_read d); [|reflexivity].
  eexists; split; [reflexivity|].
  destruct (forallb nonpositive _); [|reflexivity].
  apply keys_set_present; rewrite keys_clamped_scores.
  unfold labels; simpl; tauto.
Qed.

Lemma forallb_agree {A : Type} (f g : A -> bool) (l : list A) :
  (forall x, In x l -> f x = g x) -> forallb f l = forallb g l.
Proof.
  induction l as [|x l IH]; intros H; [reflexivity|].
  simpl; rewrite (H x) by (left; reflexivity).
  rewrite IH; [reflexivity|].
  intros y Hy; apply H; right; exact Hy.
Qed.

(** X4.  [convert] looks at the scores of the eight labels and at nothing
    else: two dicts that give the same eight scores, read with the
    default 0.0, convert alike. *)
Theorem convert_reads_eight_scores (d1 d2 : dict) :
  (forall cn_key,
     In cn_key CPUQwenEmotion.desired_vector_order ->
     score d1 cn_key = score d2 cn_key) ->
  CPUQwenEmotion.convert (VDict d1) = CPUQwenEmotion.convert (VDict d2).
Proof.
  intros H; rewrite !convert_dict.
  assert (Hc : clamped_scores d1 = clamped_scores d2).
  { unfold clamped_scores; apply map_ext_in; intros [cn en] Hin.
    cbn [fst snd]; rewrite H; [reflexivity|].
    change CPUQwenEmotion.desired_vector_order
      with (map fst CPUQwenEmotion.cn_key_to_en).
    apply (in_map fst _ _ Hin). }
  assert (Hn : numbers_read d1 = numbers_read d2).
  { unfold numbers_read; apply forallb_agree; intros cn Hin.
    rewrite (H cn Hin); reflexivity. }
  rewrite Hc, Hn; reflexivity.
Qed.

Lemma convert_reads_eight_scores_witness :
  CPUQwenEmotion.convert
    (VDict [(py "note", VStr (py "n/a"));
            (CPUQwenEmotion.cn_calm, VFloat Fixture.half)])
  = CPUQwenEmotion.convert Fixture.calm_alone.
Proof.
  apply convert_reads_eight_scores.
  intros cn_key Hin; simpl in Hin.
  repeat (destruct Hin as [<-|Hin]; [reflexivity|]); contradiction.
Defined.

Lemma forallb_false_exists {A : Type} (f : A -> bool) (l : list A) :
  forallb f l = false -> exists x, In x l /\ f x = false.
Proof.
  induction l as [|x l IH]; simpl; [discriminate|].
  destruct (f x) eqn:E; simpl.
  - intros H; destruct (IH H) as (y & Hy & Hf).
    exists y; split; [right; exact Hy|exact Hf].
  - intros _; exists x; split; [left; reflexivity|exact E].
Qed.

Lemma in_range_positive (v : pyval) :
  in_range v = true -> nonpositive v = false -> positive v = true.
Proof.
  unfold in_range, nonpositive, positive, float_le, le_float, gt_float.
  change CPUQwenEmotion.min_score with Float.zero.
  destruct (compare_float v Float.zero) as [[[ | | ]|]|]; cbn [rbind];
    destruct (compare_float v CPUQwenEmotion.max_score) as [[[ | | ]|]|];
    cbn [rbind andb]; congruence.
Qed.

(** X5.  A vector that [convert] returns is never without signal: one
    label at least has a value above 0.0. *)
Theorem convert_never_all_zero (content : pyval) (vec : dict) :
  CPUQwenEmotion.convert content = Ok vec ->
  exists label v, Dict.get vec label = Some v /\ positive v = true.
Proof.
  intros H.
  destruct content as [ | | | | | |d];
    try (rewrite convert_not_dict in H by discriminate; discriminate).
  rewrite convert_dict in H.
  destruct (numbers_read d) eqn:Hn; [|discriminate].
  pose proof (f_equal (fun r => match r with
                                | Ok x => x
                                | Raise _ => vec
                                end) H) as Hvec.
  cbv beta iota in Hvec; subst vec; clear H.
  destruct (forallb nonpositive (Dict.values (clamped_scores d))) eqn:Hz.
  - exists (py "calm"), (VFloat Float.one); split; [|reflexivity].
    apply get_set_same.
  - apply forallb_false_exists in Hz as (v & Hin & Hv).
    unfold Dict.values, clamped_scores in Hin.
    rewrite map_map in Hin; cbn [snd] in Hin.
    apply in_map_iff in Hin as ([cn en] & <- & Hce); cbn [fst] in *.
    exists en, (clamp (score d cn)); split.
    + apply get_clamped_scores; exact Hce.
    + apply in_range_positive; [|exact Hv].
      apply clamp_score_number.
      unfold numbers_read in Hn; rewrite forallb_forall in Hn; apply Hn.
      change CPUQwenEmotion.desired_vector_order
        with (map fst CPUQwenEmotion.cn_key_to_en).
      apply (in_map fst _ _ Hce).
Qed.

Lemma convert_never_all_zero_witness :
  exists vec,
    CPUQwenEmotion.convert (VDict []) = Ok vec
    /\ exists label v, Dict.get vec label = Some v /\ positive v = true.
Proof.
  eexists; split; [reflexivity|].
  apply (@convert_never_all_zero (VDict []) _ eq_refl).
Defined.

(** ** Where the answer starts *)

Lemma index_absent (x : Z) (l : list Z) :
  ~ In x l -> CPUQwenEmotion.index x l = None.
Proof.
  induction l as [|y l IH]; simpl; intros H; [reflexivity|].
  destruct (Z.eqb_spec x y) as [->|_]; [exfalso; apply H; left; reflexivity|].
  rewrite IH; [reflexivity|].
  intros Hin; apply H; right; exact Hin.
Qed.

Lemma index_first (x : Z) (a b : list Z) :
  ~ In x a -> CPUQwenEmotion.index x (a ++ x :: b) = Some (List.length a).
Proof.
  induction a as [|y a IH]; simpl; intros H.
  - rewrite Z.eqb_refl; reflexivity.
  - destruct (Z.eqb_spec x y) as [->|_];
      [exfalso; apply H; left; reflexivity|].
    rewrite IH; [reflexivity|].
    intros Hin; apply H; right; exact Hin.
Qed.

Lemma skipn_past (A : Type) (pre post : list A) (x : A) :
  skipn (S (List.length pre)) (pre ++ x :: post) = post.
Proof. induction pre as [|y pre IH]; [reflexivity|exact IH]. Qed.

(** X6.  The ids that are decoded: all of them when 151668 is not among
    the generated ids, and otherwise the ids after its last occurrence
    (none, when it stands last). *)
Theorem answer_after_last_marker (output_ids : list Z) :
  (~ In 151668%Z output_ids ->
   skipn (CPUQwenEmotion.answer_start output_ids) output_ids = output_ids)
  /\ (forall pre post,
        output_ids = pre ++ 151668%Z :: post ->
        ~ In 151668%Z post ->
        skipn (CPUQwenEmotion.answer_start output_ids) output_ids = post).
Proof.
  unfold CPUQwenEmotion.answer_start; split.
  - intros H; rewrite index_absent; [reflexivity|].
    intros Hin; apply H, in_rev; exact Hin.
  - intros pre post -> H.
    rewrite rev_app_distr; cbn [rev]; rewrite <- app_assoc; cbn [app].
    rewrite index_first by (intros Hin; apply H, in_rev; exact Hin).
    rewrite length_rev, length_app; cbn [List.length].
    replace (List.length pre + S (List.length post) - List.length post)%nat
      with (S (List.length pre)) by lia.
    apply skipn_past.
Qed.

Lemma answer_after_last_marker_witness :
  skipn (CPUQwenEmotion.answer_start [3; 151668; 4; 151668; 5; 6]%Z)
        [3; 151668; 4; 151668; 5; 6]%Z = [5; 6]%Z
  /\ skipn (CPUQwenEmotion.answer_start [3; 4]%Z) [3; 4]%Z = [3; 4]%Z.
Proof.
  split.
  - apply (proj2 (answer_after_last_marker [3; 151668; 4; 151668; 5; 6]%Z)
             [3; 151668; 4]%Z [5; 6]%Z eq_refl).
    simpl; intros [H|[H|[]]]; discriminate.
  - apply (proj1 (answer_after_last_marker [3; 4]%Z)).
    simpl; intros [H|[H|[]]]; discriminate.
Defined.

(** ** From the decoded content to the vector *)













(** X10.  When the decoded content is JSON for anything but an object (a
    list, a number, a string, true, false, null), [inference] raises
    [AttributeError], with or without a melancholic word in the input
    text. *)
Theorem non_object_json_raises (text_input content : pystr) (v : pyval) :
  Json.loads content = Ok v ->
  (forall d, v <> VDict d) ->
  CPUQwenEmotion.classify text_input content = Raise AttributeError.
Proof.
  intros Hl Hv.
  unfold CPUQwenEmotion.classify, CPUQwenEmotion.parse_content.
  rewrite Hl; cbn [rbind].
  unfold CPUQwenEmotion.disambiguate.
  destruct (CPUQwenEmotion.has_melancholic_word text_input);
    destruct v; try reflexivity; exfalso; eapply Hv; reflexivity.
Qed.

Lemma non_object_json_raises_witness :
  Json.loads (py "[0.5, 0.1]")
  = Ok (VList [VFloat Fixture.half; VFloat Fixture.f0_1])
  /\ CPUQwenEmotion.classify (py "feeling fine") (py "[0.5, 0.1]")
     = Raise AttributeError.
Proof.
  split; [vm_compute; reflexivity|].
  apply (@non_object_json_raises (py "feeling fine") (py "[0.5, 0.1]")
           (VList [VFloat Fixture.half; VFloat Fixture.f0_1]));
    [vm_compute; reflexivity|discriminate].
Defined.

(** ** The test on melancholic words *)

Lemma lower_cp_idempotent (c : codepoint) :
  Str.lower_cp (Str.lower_cp c) = Str.lower_cp c.
Proof.
  unfold Str.lower_cp.
  destruct ((65 <=? c)%N && (c <=? 90)%N) eqn:E; [|rewrite E; reflexivity].
  apply andb_true_iff in E as [H1 H2].
  apply N.leb_le in H1, H2.
  replace ((65 <=? c + 32)%N && (c + 32 <=? 90)%N) with false; [reflexivity|].
  symmetry; apply andb_false_iff; right; apply N.leb_gt; lia.
Qed.

Lemma lower_idempotent (s : pystr) : Str.lower (Str.lower s) = Str.lower s.
Proof.
  unfold Str.lower; rewrite map_map.
  apply map_ext; exact lower_cp_idempotent.
Qed.

(** X11.  The test on melancholic words is containment up to the case of
    the letters A-Z: it holds exactly when one of the six words occurs in
    the text in some mix of cases; text around an occurrence does not
    undo it; the text and its lower-case form are judged alike. *)
Theorem melancholic_test_is_containment (text_input : pystr) :
  (CPUQwenEmotion.has_melancholic_word text_input = true
   <-> mentions_melancholy text_input)
  /\ (forall before after,
        CPUQwenEmotion.has_melancholic_word text_input = true ->
        CPUQwenEmotion.has_melancholic_word (before ++ text_input ++ after)
        = true)
  /\ CPUQwenEmotion.has_melancholic_word (Str.lower text_input)
     = CPUQwenEmotion.has_melancholic_word text_input.
Proof.
  split; [apply has_melancholic_word_iff|split].
  - intros before after H.
    apply has_melancholic_word_iff in H as (word & Hin & a & m & b & -> & Hm).
    apply has_melancholic_word_iff.
    exists word; split; [exact Hin|].
    exists (before ++ a), m, (b ++ after); split; [|exact Hm].
    rewrite <- !app_assoc; reflexivity.
  - unfold CPUQwenEmotion.has_melancholic_word; cbv zeta.
    rewrite lower_idempotent; reflexivity.
Qed.

(** ** The matches of the pattern *)

Lemma forallb_rev {A : Type} (f : A -> bool) (l : list A) :
  forallb f l = true -> forallb f (rev l) = true.
Proof.
  rewrite !forallb_forall; intros H x Hx; apply H, in_rev; exact Hx.
Qed.

Lemma span_number_chars (s num r : pystr) :
  Re.span_number s = (num, r) -> forallb Re.number_char num = true.
Proof.
  revert num r; induction s as [|c s IH]; simpl; intros num r H.
  - injection H as <- _; reflexivity.
  - destruct (Re.number_char c) eqn:E.
    + destruct (Re.span_number s) as [ds r'].
      injection H as <- _; simpl; rewrite E; exact (IH ds r' eq_refl).
    + injection H as <- _; reflexivity.
Qed.

Lemma colon_number_chars (s num r : pystr) :
  Re.colon_number s = Some (num, r) ->
  num <> [] /\ forallb Re.number_char num = true.
Proof.
  unfold Re.colon_number; intros H.
  destruct (Str.lstrip s) as [|c s1]; [discriminate|].
  destruct (c =? 58)%N; [|discriminate].
  destruct (Re.span_number (Str.lstrip s1)) as [[|x num'] r'] eqn:E;
    [discriminate|].
  injection H as <- _; split; [discriminate|].
  exact (span_number_chars _ E).
Qed.

Lemma tail_chars (s num r : pystr) :
  Re.tail s = Some (num, r) ->
  num <> [] /\ forallb Re.number_char num = true.
Proof.
  unfold Re.tail; intros H.
  destruct s as [|c s1]; [discriminate|].
  destruct (c =? 34)%N.
  - destruct (Re.colon_number s1) as [[n1 r1]|] eqn:E.
    + injection H as <- _; exact (colon_number_chars _ E).
    + exact (colon_number_chars _ H).
  - exact (colon_number_chars _ H).
Qed.

Lemma label_well_formed (s : pystr) :
  forall acc g1 g2 r,
    Re.label s acc = Some (g1, g2, r) ->
    acc <> [] ->
    forallb Re.label_char acc = true ->
    well_formed_match (g1, g2) = true.
Proof.
  induction s as [|c s IH]; intros acc g1 g2 r H Hne Hacc.
  - unfold Re.label in H.
    destruct (Re.tail []) as [[num r']|] eqn:E; discriminate.
  - cbn [Re.label] in H.
    destruct (Re.tail (c :: s)) as [[num r']|] eqn:E.
    + injection H as <- <- _.
      destruct (tail_chars _ E) as [Hn Hc].
      unfold well_formed_match; cbn [fst snd].
      destruct (rev acc) eqn:Er.
      * exfalso; apply Hne.
        rewrite <- (rev_involutive acc), Er; reflexivity.
      * destruct num; [contradiction|].
        rewrite <- Er, (forallb_rev _ _ Hacc), Hc; reflexivity.
    + destruct (Re.label_char c) eqn:Ec; [|discriminate].
      apply (IH (c :: acc) g1 g2 r H); [discriminate|].
      simpl; rewrite Ec; exact Hacc.
Qed.

(** X12.  Every match of the pattern of the scan has a label of one
    character or more, none of them a blank, a double quote, a colon, a
    point or a comma, and a number text of one character or more, all
    digits and points. *)
Theorem finditer_well_formed (content : pystr) :
  Forall (fun m => well_formed_match m = true) (Re.finditer content).
Proof.
  unfold Re.finditer; generalize 0%nat as skip.
  induction content as [|c s IH]; intros skip; [constructor|].
  cbn [Re.finditer_from].
  destruct skip as [|k]; [|apply IH].
  destruct (Re.match_here (c :: s)) as [[[g1 g2] r]|] eqn:E; [|apply IH].
  constructor; [|apply IH].
  unfold Re.match_here in E.
  destruct (Re.label_char c) eqn:Ec; [|discriminate].
  apply (@label_well_formed s [c] g1 g2 r E); [discriminate|].
  simpl; rewrite Ec; reflexivity.
Qed.

(** ** The wrapper in every state *)

(** X13.  [SafeQwenEmotion.inference] never raises, whatever the inner
    class does and whether or not there is an inner instance: it returns
    either what the inner [inference] returned, in the world that call
    left, or the neutral dict. *)
Theorem safe_inference_never_raises (ext : Type) (original_cls : pyclass ext)
    (s : SafeQwenEmotion.self original_cls) (text_input : pystr)
    (w : world ext) :
  exists d w',
    SafeQwenEmotion.inference s text_input w = (Ok d, w')
    /\ (d = SafeQwenEmotion.neutral
        \/ exists inner,
             SafeQwenEmotion._inner s = Some inner
             /\ inference original_cls inner text_input w = (Ok d, w')).
Proof.
  destruct (SafeQwenEmotion._inner s) as [inner|] eqn:Hs.
  - rewrite (ready_inference s text_input w Hs).
    destruct (inference original_cls inner text_input w) as [[d|exc] w1] eqn:E.
    + exists d, w1; split; [reflexivity|].
      right; exists inner; split; [reflexivity|exact E].
    + eexists _, _; split; [reflexivity|left; reflexivity].
  - rewrite (degraded_inference s text_input w Hs).
    eexists _, _; split; [reflexivity|left; reflexivity].
Qed.

(** X14.  [SafeQwenEmotion.__init__] never raises.  When the inner
    constructor returns, the wrapper keeps the instance, no exception,
    and prints nothing; when it raises, the wrapper keeps no instance,
    the exception, and prints one line. *)
Theorem safe_init_outcome (ext : Type) (original_cls : pyclass ext)
    (model_dir : pystr) (w : world ext) :
  exists s w',
    SafeQwenEmotion.__init__ original_cls model_dir w = (Ok s, w')
    /\ match init original_cls model_dir w with
       | (Ok inner, w1) =>
           s = SafeQwenEmotion.Self original_cls (Some inner) None
           /\ w' = w1
       | (Raise exc, w1) =>
           s = SafeQwenEmotion.Self original_cls None (Some exc)
           /\ w' = World (outside w1) (stdout w1 ++ [Unavailable exc])
       end.
Proof.
  unfold SafeQwenEmotion.__init__, try_except, bind.
  destruct (init original_cls model_dir w) as [[inner|exc] w1];
    eexists _, _; split; try reflexivity; split; reflexivity.
Qed.

(** X15.  The wrapper around [CPUQwenEmotion], once the ids are generated
    and the answer is decoded: the vector when the content is read and
    converted, and the neutral dict after one printed line when that
    raises, as the scan does on a number text that [float] rejects. *)
Theorem safe_cpu_inference (ext : Type) (B : backend ext) (h : handle B)
    (text_input : pystr) (w : world ext) (output_ids : list Z) (x y : ext)
    (content : pystr) :
  generate B h text_input (outside w) = (Ok output_ids, x) ->
  decode B h
    (skipn (CPUQwenEmotion.answer_start output_ids) output_ids) x
  = (Ok content, y) ->
  SafeQwenEmotion.inference
    (SafeQwenEmotion.Self (CPUQwenEmotion.cls B) (Some h) None)
    text_input w
  = match CPUQwenEmotion.classify text_input content with
    | Ok vec => (Ok vec, World y (stdout w))
    | Raise exc =>
        (Ok SafeQwenEmotion.neutral,
         World y (stdout w ++ [InferenceFailed exc]))
    end.
Proof.
  intros Hg Hd.
  unfold SafeQwenEmotion.inference; cbn [SafeQwenEmotion._inner].
  unfold try_except.
  cbn [inference CPUQwenEmotion.cls].
  unfold CPUQwenEmotion.inference, bind.
  unfold call at 1; rewrite Hg.
  unfold call at 1; cbn [outside stdout]; rewrite Hd.
  unfold lift.
  destruct (CPUQwenEmotion.classify text_input content); reflexivity.
Qed.

Lemma safe_cpu_inference_witness :
  SafeQwenEmotion.inference
    (SafeQwenEmotion.Self (CPUQwenEmotion.cls Sample.scripted) (Some tt) None)
    (py "How do I sound?") (World tt [])
  = (Ok SafeQwenEmotion.neutral,
     World tt
       [InferenceFailed (ValueError "could not convert string to float")]).
Proof.
  exact (@safe_cpu_inference unit Sample.scripted tt (py "How do I sound?")
           (World tt []) [7; 151668; 8; 9]%Z tt tt Fixture.happy_sentence
           eq_refl eq_refl).
Defined.

(** X16.  The two patches of [setup] settle the class attribute: running
    them again changes nothing; on a host without CUDA the attribute is
    the wrapper around [CPUQwenEmotion], whatever it was before; with
    CUDA a class that was there is wrapped once, and an attribute that
    was absent stays absent. *)
Theorem setup_attribute_settles (ext : Type) (cuda_is_available : bool)
    (B : backend ext) (QwenEmotion : attribute ext) :
  setup_attribute cuda_is_available B
    (setup_attribute cuda_is_available B QwenEmotion)
  = setup_attribute cuda_is_available B QwenEmotion
  /\ setup_attribute false B QwenEmotion
     = Some (SafeQwenEmotion.cls (CPUQwenEmotion.cls B))
  /\ match setup_attribute cuda_is_available B QwenEmotion with
     | Some c => _is_safe_wrapper c = true
     | None => cuda_is_available = true /\ QwenEmotion = None
     end.
Proof.
  unfold setup_attribute, _maybe_patch_qwen_for_cpu.
  destruct cuda_is_available.
  - destruct QwenEmotion as [c|]; cbn [_wrap_qwen_with_fallback].
    + destruct (_is_safe_wrapper c) eqn:E.
      * cbn [_wrap_qwen_with_fallback]; rewrite E.
        repeat split; exact E.
      * repeat split.
    + repeat split.
  - repeat split.
Qed.

(** ** [_parse_vector] on blank and comma separated strings *)

Lemma lstrip_forallb (P : codepoint -> bool) (s : pystr) :
  forallb P s = true -> forallb P (Str.lstrip s) = true.
Proof.
  induction s as [|c s IH]; [reflexivity|].
  intros H; cbn [Str.lstrip].
  destruct (Str.isspace c); [|exact H].
  simpl in H; apply andb_true_iff in H as [_ H]; exact (IH H).
Qed.

Lemma strip_forallb (P : codepoint -> bool) (s : pystr) :
  forallb P s = true -> forallb P (Str.strip s) = true.
Proof.
  intros H; unfold Str.strip, Str.rstrip.
  apply forallb_rev, lstrip_forallb, forallb_rev, lstrip_forallb, H.
Qed.

Lemma lstrip_blank (s : pystr) :
  forallb Str.isspace s = true -> Str.lstrip s = [].
Proof.
  induction s as [|c s IH]; [reflexivity|].
  intros H; simpl in H; apply andb_true_iff in H as [Hc H].
  cbn [Str.lstrip]; rewrite Hc; exact (IH H).
Qed.

Lemma strip_blank (s : pystr) :
  forallb Str.isspace s = true -> Str.strip s = [].
Proof.
  intros H; unfold Str.strip, Str.rstrip.
  rewrite (lstrip_blank s H); reflexivity.
Qed.

Lemma split_blank_tokens (s : pystr) :
  forallb blank_or_comma s = true ->
  Forall (fun tok => forallb Str.isspace tok = true) (Str.split 44%N s).
Proof.
  induction s as [|c s IH]; intros H.
  - repeat constructor.
  - simpl in H; apply andb_true_iff in H as [Hc H].
    specialize (IH H); cbn [Str.split].
    destruct (c =? 44)%N eqn:E.
    + constructor; [reflexivity|exact IH].
    + unfold blank_or_comma in Hc; rewrite E, orb_false_r in Hc.
      destruct (Str.split 44%N s) as [|p ps].
      * repeat constructor; simpl; rewrite Hc; reflexivity.
      * inversion IH as [|? ? Hp Hps]; subst.
        constructor; [simpl; rewrite Hc; exact Hp|exact Hps].
Qed.

Lemma parse_vector_blank (raw : pystr) :
  Str.strip raw = [] -> _parse_vector (Some raw) = Ok None.
Proof.
  intros H; unfold _parse_vector.
  destruct raw as [|c raw]; [reflexivity|].
  cbn [truthy negb]; rewrite H; reflexivity.
Qed.

(** X17.  A string of blanks and commas alone, the empty string too,
    stands for no vector: [_parse_vector] returns [None] and does not
    raise; so does it without a string. *)
Theorem parse_vector_absent (raw : pystr) :
  forallb blank_or_comma raw = true ->
  _parse_vector (Some raw) = Ok None /\ _parse_vector None = Ok None.
Proof.
  intros H; split; [|reflexivity].
  destruct (Str.strip raw) as [|c r] eqn:E;
    [apply parse_vector_blank; exact E|].
  rewrite parse_vector_stripped by (rewrite E; discriminate).
  pose proof (strip_forallb _ _ H) as Hs; rewrite E in Hs.
  unfold read_values, comma_separated.
  replace (Str.startswith (Str.strip raw) (py "[")) with false.
  - replace (filter _ (Str.split 44%N (Str.strip raw))) with (@nil pystr);
      [reflexivity|].
    symmetry; rewrite E.
    pose proof (split_blank_tokens _ Hs) as Ht.
    induction Ht as [|tok toks Htok _ IH]; [reflexivity|].
    cbn [filter]; rewrite (strip_blank tok Htok); exact IH.
  - rewrite E; cbn [Str.startswith py map list_ascii_of_string].
    simpl in Hs; apply andb_true_iff in Hs as [Hc _].
    destruct (N.eqb_spec (N_of_ascii "[") c) as [<-|_]; [discriminate|].
    reflexivity.
Qed.

Lemma parse_vector_absent_witness :
  forallb blank_or_comma (py " , ,, ") = true
  /\ _parse_vector (Some (py " , ,, ")) = Ok None.
Proof.
  split; [reflexivity|].
  apply (proj1 (parse_vector_absent (py " , ,, ") eq_refl)).
Defined.

Lemma rmap_float_tokens (toks : list pystr) (fs : list float) :
  Forall2 (fun tok f => float_of_str tok = Some f) toks fs ->
  rmap (fun tok => py_float (VStr tok)) toks = Ok fs.
Proof.
  induction 1 as [|tok f toks fs H _ IH]; [reflexivity|].
  cbn [rmap]; unfold py_float at 1; rewrite H; cbn [rbind].
  rewrite IH; reflexivity.
Qed.

Lemma rmap_float_floats (fs : list float) :
  rmap py_float (map VFloat fs) = Ok fs.
Proof.
  induction fs as [|f fs IH]; [reflexivity|].
  cbn [map rmap py_float rbind]; rewrite IH; reflexivity.
Qed.

(** What [_parse_vector] does once the values are a list of floats. *)
Lemma parse_vector_floats (raw : pystr) (fs : list float) :
  Str.strip raw <> [] ->
  read_values (Str.strip raw) = Ok (VList (map VFloat fs)) ->
  _parse_vector (Some raw)
  = Ok (match fs with [] => None | _ :: _ => Some fs end).
Proof.
  intros Hne Hr; rewrite parse_vector_stripped by exact Hne.
  rewrite Hr; cbn [rbind].
  destruct fs as [|f fs]; [reflexivity|].
  cbn [truthy map negb py_iter rbind].
  change (VFloat f :: map VFloat fs) with (map VFloat (f :: fs)).
  rewrite rmap_float_floats; reflexivity.
Qed.

Lemma parse_vector_tokens (raw : pystr) (fs : list float) :
  Str.strip raw <> [] ->
  Str.startswith (Str.strip raw) (py "[") = false ->
  Forall2 (fun tok f => float_of_str tok = Some f) (nonblank_tokens raw) fs ->
  _parse_vector (Some raw)
  = Ok (match fs with [] => None | _ :: _ => Some fs end).
Proof.
  intros Hne Hs Hf; apply parse_vector_floats; [exact Hne|].
  unfold read_values, comma_separated; rewrite Hs.
  fold (nonblank_tokens raw).
  rewrite (rmap_float_tokens Hf); reflexivity.
Qed.

(** X18.  A comma separated string whose tokens, the blank ones left
    out, are all numbers gives these numbers as floats, in the order of
    the string, however many they are. *)
Theorem parse_vector_comma_separated (raw : pystr) (fs : list float) :
  Str.strip raw <> [] ->
  Str.startswith (Str.strip raw) (py "[") = false ->
  Forall2 (fun tok f => float_of_str tok = Some f) (nonblank_tokens raw) fs ->
  _parse_vector (Some raw)
  = Ok (match fs with [] => None | _ :: _ => Some fs end).
Proof. exact (@parse_vector_tokens raw fs). Qed.

Lemma parse_vector_comma_separated_witness :
  _parse_vector (Some (py " 1, 0.5 ,,2e1"))
  = Ok (Some [Float.one; Fixture.half; Float.of_Z 20]).
Proof.
  apply (@parse_vector_comma_separated (py " 1, 0.5 ,,2e1")
           [Float.one; Fixture.half; Float.of_Z 20]);
    [discriminate|reflexivity|].
  repeat constructor.
Defined.

Lemma tokens_parse_or_not (toks : list pystr) :
  Exists (fun tok => float_of_str tok = None) toks
  \/ exists fs, Forall2 (fun tok f => float_of_str tok = Some f) toks fs.
Proof.
  induction toks as [|tok toks IH].
  - right; exists []; constructor.
  - destruct (float_of_str tok) as [f|] eqn:E.
    + destruct IH as [IH|[fs IH]].
      * left; right; exact IH.
      * right; exists (f :: fs); constructor; assumption.
    + left; left; exact E.
Qed.

(** X19.  On a comma separated string [_parse_vector] raises exactly when
    a token that is not blank is no number, and what it raises is its own
    [ValueError], with the message that names both formats. *)
Theorem parse_vector_comma_failure (raw : pystr) :
  Str.strip raw <> [] ->
  Str.startswith (Str.strip raw) (py "[") = false ->
  ((exists e, _parse_vector (Some raw) = Raise e)
   <-> Exists (fun tok => float_of_str tok = None) (nonblank_tokens raw))
  /\ (forall e,
        _parse_vector (Some raw) = Raise e ->
        e = ValueError parse_vector_message).
Proof.
  intros Hne Hs.
  destruct (tokens_parse_or_not (nonblank_tokens raw)) as [Hbad|[fs Hok]].
  - assert (H : _parse_vector (Some raw)
                = Raise (ValueError parse_vector_message)).
    { rewrite parse_vector_stripped by exact Hne.
      unfold read_values, comma_separated; rewrite Hs.
      fold (nonblank_tokens raw).
      rewrite (rmap_float_raises Hbad); reflexivity. }
    rewrite H; split; [split|].
    + intros _; exact Hbad.
    + intros _; eexists; reflexivity.
    + intros e [= <-]; reflexivity.
  - rewrite (parse_vector_tokens raw Hne Hs Hok).
    split; [split|].
    + intros [e He]; discriminate.
    + intros Hbad; exfalso.
      induction Hok as [|tok f toks fs H _ IH].
      * inversion Hbad.
      * inversion Hbad as [? ? H0|? ? H0]; subst; [congruence|exact (IH H0)].
    + intros e He; discriminate.
Qed.

Lemma parse_vector_comma_failure_witness :
  (exists e, _parse_vector (Some (py "0.5, high")) = Raise e)
  /\ _parse_vector (Some (py "0.5, high"))
     = Raise (ValueError parse_vector_message).
Proof.
  destruct (@parse_vector_comma_failure (py "0.5, high"))
    as [[_ Hraise] Hkind]; [discriminate|reflexivity|].
  assert (He : exists e, _parse_vector (Some (py "0.5, high")) = Raise e).
  { apply Hraise; right; left; reflexivity. }
  split; [exact He|].
  destruct He as [e He]; rewrite He; f_equal; exact (Hkind e He).
Defined.

(** ** [_parse_vector] on JSON arrays *)


(** X21.  A string that decodes to a JSON array of floats gives exactly
    these floats: as many as the array holds, eight or not, and as they
    are, inside the range of scores or not; the empty array stands for no
    vector. *)
Theorem parse_vector_json_floats (raw : pystr) (fs : list float) :
  Str.strip raw <> [] ->
  Str.startswith (Str.strip raw) (py "[") = true ->
  Json.loads (Str.strip raw) = Ok (VList (map VFloat fs)) ->
  _parse_vector (Some raw)
  = Ok (match fs with [] => None | _ :: _ => Some fs end).
Proof.
  intros Hne Hs Hl; apply parse_vector_floats; [exact Hne|].
  unfold read_values; rewrite Hs, Hl; reflexivity.
Qed.

Lemma parse_vector_json_floats_witness :
  _parse_vector (Some (py "[5.5, -3.25, 1e400]"))
  = Ok (Some [Float.of_decimal 55 (-1);
              SFopp (Float.of_decimal 325 (-2));
              S754_infinity false]).
Proof.
  apply (@parse_vector_json_floats (py "[5.5, -3.25, 1e400]")
           [Float.of_decimal 55 (-1);
            SFopp (Float.of_decimal 325 (-2));
            S754_infinity false]);
    [discriminate|reflexivity|vm_compute; reflexivity].
Defined.

(** ** [predict] *)

Lemma predict_propagates_witness :
  _parse_vector (emotion_vector Sample.bad_vector)
  = Raise (ValueError parse_vector_message)
  /\ predict Fixture.mkdtemp Fixture.tts_infer Sample.bad_vector (World [] [])
     = (Raise (ValueError parse_vector_message), World [] []).
Proof.
  split; [reflexivity|].
  apply (@predict_propagates Fixture.recorder Fixture.mkdtemp
           Fixture.tts_infer Sample.bad_vector
           (ValueError parse_vector_message) (World [] []) eq_refl).
Defined.

(** X23.  Without an explicit vector and without an emotion text that is
    not blank, [predict] calls the engine once the directory is made,
    with no vector and without the flag for text classification; the
    audio prompts, the scale, the randomize flag and the controls go
    through as they came, and the output path is output.wav in the new
    directory. *)
Theorem predict_without_emotion_inputs (ext : Type)
    (mkdtemp : ext -> result pystr * ext)
    (tts_infer : infer_args -> ext -> result pystr * ext)
    (req : request) (w : world ext) (tmp_dir : pystr) (x : ext) :
  _parse_vector (emotion_vector req) = Ok None ->
  text_given (emotion_text req) = false ->
  mkdtemp (outside w) = (Ok tmp_dir, x) ->
  predict mkdtemp tts_infer req w
  = call (tts_infer
            {| spk_audio_prompt := speaker_audio req;
               arg_text := text req;
               output_path := tmp_dir ++ py "/output.wav";
               emo_audio_prompt := emotion_audio req;
               emo_alpha := emotion_scale req;
               emo_vector := None;
               use_emo_text := false;
               emo_text := emotion_text req;
               use_random := randomize_emotion req;
               arg_settings := settings req |})
         (World x (stdout w)).
Proof.
  intros Hv Ht Hd.
  rewrite (predict_hands_over mkdtemp tts_infer req w Hv Hd).
  unfold infer_kwargs; rewrite Ht; reflexivity.
Qed.

Lemma predict_without_emotion_inputs_witness :
  predict Fixture.mkdtemp Fixture.tts_infer Sample.plain (World [] [])
  = (Ok (py "/tmp/tmpdir/output.wav"),
     World
       [ {| spk_audio_prompt := py "speaker.wav";
            arg_text := py "Hello there.";
            output_path := py "/tmp/tmpdir/output.wav";
            emo_audio_prompt := Some (py "mood.wav");
            emo_alpha := Float.one;
            emo_vector := None;
            use_emo_text := false;
            emo_text := Some (py " ");
            use_random := true;
            arg_settings := Fixture.default_controls |} ]
       []).
Proof.
  exact (@predict_without_emotion_inputs Fixture.recorder Fixture.mkdtemp
           Fixture.tts_infer Sample.plain (World [] []) (py "/tmp/tmpdir") []
           eq_refl eq_refl eq_refl).
Defined.

(** ** The flag for text classification *)

Lemma lstrip_nil_blank (s : pystr) :
  Str.lstrip s = [] -> forallb Str.isspace s = true.
Proof.
  induction s as [|c s IH]; [reflexivity|].
  cbn [Str.lstrip forallb].
  destruct (Str.isspace c); [exact IH|discriminate].
Qed.

Lemma lstrip_idempotent (s : pystr) :
  Str.lstrip (Str.lstrip s) = Str.lstrip s.
Proof.
  induction s as [|c s IH]; [reflexivity|].
  cbn [Str.lstrip].
  destruct (Str.isspace c) eqn:E; [exact IH|].
  cbn [Str.lstrip]; rewrite E; reflexivity.
Qed.

Lemma strip_nil_blank (s : pystr) :
  Str.strip s = [] -> forallb Str.isspace s = true.
Proof.
  unfold Str.strip, Str.rstrip; intros H.
  assert (H1 : Str.lstrip (rev (Str.lstrip s)) = []).
  { rewrite <- (rev_involutive (Str.lstrip _)), H; reflexivity. }
  apply lstrip_nil_blank, forallb_rev in H1.
  rewrite rev_involutive in H1.
  apply lstrip_nil_blank.
  rewrite <- lstrip_idempotent; apply lstrip_blank; exact H1.
Qed.

Lemma existsb_negb_forallb {A : Type} (f : A -> bool) (l : list A) :
  existsb (fun x => negb (f x)) l = negb (forallb f l).
Proof.
  induction l as [|x l IH]; [reflexivity|].
  simpl; rewrite IH; destruct (f x); reflexivity.
Qed.

(** X24.  The flag [use_emo_text] that [predict] hands over is set
    exactly when an emotion text is given and holds a character that is
    no blank; the explicit vector has no part in it. *)
Theorem use_emo_text_when_text_not_blank (req : request)
    (emotion_values : option (list float)) (out : pystr) :
  use_emo_text (infer_kwargs req emotion_values out)
  = match emotion_text req with
    | None => false
    | Some t => existsb (fun c => negb (Str.isspace c)) t
    end.
Proof.
  cbn [use_emo_text infer_kwargs]; unfold text_given.
  destruct (emotion_text req) as [t|]; [|reflexivity].
  rewrite existsb_negb_forallb; f_equal.
  destruct (forallb Str.isspace t) eqn:E.
  - rewrite (strip_blank t E); reflexivity.
  - destruct (Str.strip t) eqn:Es; [|reflexivity].
    rewrite (strip_nil_blank t Es) in E; discriminate.
Qed.

(** ** [_parse_vector] never returns an empty vector *)

Lemma rmap_length {A B : Type} (f : A -> result B) (l : list A)
    (ys : list B) :
  rmap f l = Ok ys -> List.length ys = List.length l.
Proof.
  revert ys; induction l as [|x l IH]; simpl; intros ys.
  - intros [= <-]; reflexivity.
  - destruct (f x); cbn [rbind]; [|discriminate].
    destruct (rmap f l) as [ys'|]; cbn [rbind]; [|discriminate].
    intros [= <-]; simpl; rewrite (IH ys' eq_refl); reflexivity.
Qed.

(** X25.  A vector that [_parse_vector] returns has one float at least:
    the string without values gives [None], never the empty list. *)
Theorem parse_vector_never_empty (raw : option pystr) (fs : list float) :
  _parse_vector raw = Ok (Some fs) -> fs <> [].
Proof.
  unfold _parse_vector.
  destruct raw as [raw|]; [|discriminate].
  destruct (negb (truthy (VStr raw))); [discriminate|].
  destruct (negb (truthy (VStr (Str.strip raw)))); [discriminate|].
  destruct (read_values (Str.strip raw)) as [values|]; cbn [rbind];
    [|discriminate].
  destruct (truthy values) eqn:Ht; cbn [negb]; [|discriminate].
  destruct (py_iter values) as [items|] eqn:Ei; cbn [rbind]; [|discriminate].
  destruct (rmap py_float items) as [floats|] eqn:Er; cbn [rbind];
    [|discriminate].
  intros [= <-] ->.
  apply rmap_length in Er; cbn [List.length] in Er.
  destruct items; [|discriminate].
  destruct values as [ | | | |s|l|d]; try discriminate;
    cbn [py_iter] in Ei; injection Ei as Ei.
  - destruct s; [discriminate Ht|discriminate Ei].
  - subst l; discriminate Ht.
  - destruct d; [discriminate Ht|discriminate Ei].
Qed.

Lemma parse_vector_never_empty_witness :
  _parse_vector (Some (py "[0.5]")) = Ok (Some [Fixture.half])
  /\ [Fixture.half] <> [].
Proof.
  split; [reflexivity|].
  exact (@parse_vector_never_empty (Some (py "[0.5]")) [Fixture.half]
           eq_refl).
Defined.
